(** * Blade-slot inventory reports: [blades.py] and [chassis.py]

    A shallow embedding of the slot reconciliation performed by the two
    report scripts, and the properties of it that the specification states.

    Conventions of the embedding.
    - A Python value that the reports read from an API record is a [pyval]:
      [None], an [int] or a [str].  An attribute of a record is an
      [option pyval]; [None] there means that [hasattr] is false.
    - A [str] is a [string] whose characters stand for the code points below
      256; [py_isspace] is Python's [str.isspace] on that range, and
      [int_isspace] the white space that [int] accepts around a literal.
    - A Python [dict] whose iteration order is observed is an [odict], an
      association list in insertion order.  The capacity table is only ever
      read with [.get], the two-slot models only with [in]: those are a
      [gmap] and a [gset].
    - The CSV file is the list of the lines handed to the [csv.DictWriter].
    - Logging is not part of the embedding. *)

From Stdlib Require Import Ascii.
From stdpp Require Import base decidable option list numbers strings gmap.

Local Open Scope string_scope.
Local Open Scope list_scope.
Local Open Scope Z_scope.

(** ** Python values *)

Inductive pyval : Type :=
  | PNone
  | PInt (z : Z)
  | PStr (s : string).

#[global] Instance pyval_eq_dec : EqDecision pyval.
Proof. solve_decision. Defined.

(** Truth value of [v] in a condition ([if v], [x and v]). *)
Definition truthy (v : pyval) : bool :=
  match v with
  | PNone => false
  | PInt z => negb (z =? 0)
  | PStr s => negb (String.eqb s "")
  end.

(** [obj.a if hasattr(obj, 'a') and obj.a else dflt] *)
Definition attr_or (a : option pyval) (dflt : string) : pyval :=
  match a with
  | Some v => if truthy v then v else PStr dflt
  | None => PStr dflt
  end.

(** [getattr(obj, 'a', dflt)] and [obj.a if hasattr(obj, 'a') else dflt] *)
Definition getattr (a : option pyval) (dflt : string) : pyval :=
  match a with
  | Some v => v
  | None => PStr dflt
  end.

(** ** [str.strip] and [int] *)

Definition py_isspace (c : Ascii.ascii) : bool :=
  let n := Ascii.N_of_ascii c in
  ((9 <=? n) && (n <=? 13) || (28 <=? n) && (n <=? 32)
   || (n =? 133) || (n =? 160))%N.

Fixpoint lstrip (s : string) : string :=
  match s with
  | String c r => if py_isspace c then lstrip r else s
  | EmptyString => EmptyString
  end.

Fixpoint rstrip (s : string) : string :=
  match s with
  | EmptyString => EmptyString
  | String c r =>
      match rstrip r with
      | EmptyString => if py_isspace c then EmptyString else String c EmptyString
      | r' => String c r'
      end
  end.

Definition strip (s : string) : string := rstrip (lstrip s).

Definition digit_of (c : Ascii.ascii) : option Z :=
  let n := Z.of_N (Ascii.N_of_ascii c) in
  if (48 <=? n) && (n <=? 57) then Some (n - 48) else None.

(** The digits of a decimal literal; single underscores may separate digits.
    [after_digit] tells whether the previous character was a digit. *)
Fixpoint parse_digits (acc : Z) (after_digit : bool) (s : string) : option Z :=
  match s with
  | EmptyString => if after_digit then Some acc else None
  | String c r =>
      match digit_of c with
      | Some d => parse_digits (10 * acc + d) true r
      | None =>
          if Ascii.eqb c "_"%char && after_digit then parse_digits acc false r
          else None
      end
  end.

(** The number of digits of a literal, underscores apart. *)
Fixpoint digit_count (s : string) : Z :=
  match s with
  | EmptyString => 0
  | String c r =>
      match digit_of c with
      | Some _ => 1 + digit_count r
      | None => digit_count r
      end
  end.

(** [sys.get_int_max_str_digits()], at its default *)
Definition int_max_str_digits : Z := 4300.

Definition parse_literal (s : string) : option Z :=
  if digit_count s <=? int_max_str_digits then parse_digits 0 false s else None.

(** The white space that [int] skips around a literal.  It is not that of
    [str.strip]: [int] skips the C white space (tab to carriage return, and
    the space) and the white space above code point 127, which it first turns
    into spaces, but not the separators U+001C to U+001F. *)
Definition int_isspace (c : Ascii.ascii) : bool :=
  let n := Ascii.N_of_ascii c in
  ((9 <=? n) && (n <=? 13) || (n =? 32) || (n =? 133) || (n =? 160))%N.

Fixpoint int_skip_leading (s : string) : string :=
  match s with
  | String c r => if int_isspace c then int_skip_leading r else s
  | EmptyString => EmptyString
  end.

Fixpoint int_skip_trailing (s : string) : string :=
  match s with
  | EmptyString => EmptyString
  | String c r =>
      match int_skip_trailing r with
      | EmptyString =>
          if int_isspace c then EmptyString else String c EmptyString
      | r' => String c r'
      end
  end.

(** [int(s)] for a [str]; [None] stands for [ValueError]. *)
Definition int_of_str (s : string) : option Z :=
  match int_skip_trailing (int_skip_leading s) with
  | String "+" r => parse_literal r
  | String "-" r => Z.opp <$> parse_literal r
  | t => parse_literal t
  end.

(** ** Insertion-ordered dictionaries *)

Module OrderedDict.
Section odict.
Context {K V : Type} `{EqDecision K}.

Definition odict : Type := list (K * V).

(** [d.get(k)] *)
Fixpoint get (k : K) (d : odict) : option V :=
  match d with
  | [] => None
  | (k', v) :: r => if decide (k = k') then Some v else get k r
  end.

(** [k in d] *)
Definition mem (k : K) (d : odict) : bool := bool_decide (is_Some (get k d)).

(** [d[k] = v]: a key already present keeps its position. *)
Fixpoint set (k : K) (v : V) (d : odict) : odict :=
  match d with
  | [] => [(k, v)]
  | (k', v') :: r =>
      if decide (k = k') then (k, v) :: r else (k', v') :: set k v r
  end.

(** [d.setdefault(k, v)], for its effect on [d] *)
Definition setdefault (k : K) (v : V) (d : odict) : odict :=
  match get k d with
  | Some _ => d
  | None => set k v d
  end.

(** [d.keys()], [d.values()] and [d.items()] (the list itself), in order *)
Definition keys (d : odict) : list K := d.*1.
Definition values (d : odict) : list V := d.*2.

End odict.
#[global] Arguments odict : clear implicits.
End OrderedDict.

Abbreviation odict := OrderedDict.odict.

(** ** API records *)

Module EquipmentChassis.
Record t : Type := Build
  { name : option pyval;
    moid : option pyval;
    model : option pyval;
    serial : option pyval;
    oper_state : option pyval }.
End EquipmentChassis.

Module ComputeBlade.
Record t : Type := Build
  { slot_id : option pyval;
    moid : option pyval;
    model : option pyval;
    serial : option pyval }.
End ComputeBlade.

(** What a list call of the API client returns: a falsy value, or an object
    whose [results] attribute may be missing, [None] or a list. *)
Inductive response (A : Type) : Type :=
  | NoResponse
  | Response (results : option (option (list A))).
#[global] Arguments NoResponse {A}.
#[global] Arguments Response {A} results.

(** [Some l] when [resp and hasattr(resp, 'results') and resp.results]. *)
Definition usable_results {A} (resp : response A) : option (list A) :=
  match resp with
  | NoResponse => None
  | Response None => None
  | Response (Some None) => None
  | Response (Some (Some [])) => None
  | Response (Some (Some l)) => Some l
  end.

Record Api : Type :=
  { get_equipment_chassis_list : response EquipmentChassis.t;
    (** indexed by the [chassis_moid] of the filter expression *)
    get_compute_blade_list : pyval → response ComputeBlade.t }.

(** ** The CSV writer *)

Record row : Type :=
  { Chassis : pyval;
    ChassisModel : pyval;
    ChassisSerial : pyval;
    Slot : pyval;
    BladeModel : pyval;
    BladeSerial : pyval;
    OperState : pyval }.

Inductive line : Type :=
  | writeheader
  | writerow (r : row).

(** [{field: '' for field in fieldnames}], also what [writerow({})] writes *)
Definition blank_row : row :=
  {| Chassis := PStr ""; ChassisModel := PStr ""; ChassisSerial := PStr "";
     Slot := PStr ""; BladeModel := PStr ""; BladeSerial := PStr "";
     OperState := PStr "" |}.

(** ** Configuration *)

Definition CHASSIS_SLOT_COUNTS : gmap string Z :=
  <["UCSB-5108-AC2" := 8]> (<["UCSB-5108-DC2" := 8]> (<["UCSX-9508" := 8]> ∅)).

Definition DEFAULT_SLOT_COUNT : Z := 8.

(** [chassis.py] only *)
Definition TWO_SLOT_MODELS : gset string :=
  {[ "UCSX-410C-M7"; "UCSB-B480-M5" ]}.

(** [details['model'] in TWO_SLOT_MODELS] *)
Definition in_TWO_SLOT_MODELS (v : pyval) : bool :=
  match v with
  | PStr s => bool_decide (s ∈ TWO_SLOT_MODELS)
  | _ => false
  end.

(** ** What both reports compute for a chassis
    ([blades.py] lines 71-91, [chassis.py] lines 70-87) *)

Section per_chassis.
Variable chassis : EquipmentChassis.t.

Definition chassis_name : pyval :=
  attr_or (EquipmentChassis.name chassis) "UnknownChassis".

Definition chassis_moid : pyval :=
  getattr (EquipmentChassis.moid chassis) "UnknownMoid".

Definition chassis_model_str : pyval :=
  attr_or (EquipmentChassis.model chassis) "UNKNOWN_MODEL".

Definition chassis_serial_str : pyval :=
  attr_or (EquipmentChassis.serial chassis) "UnknownSerial".

Definition reported_chassis_oper_state : string :=
  match EquipmentChassis.oper_state chassis with
  | None => "UnknownChassisState"
  | Some (PStr s) =>
      if negb (String.eqb (strip s) "") then strip s else "operable"
  | Some PNone => "NotReported (ChassisState_is_None)"
  | Some (PInt _) => "UnknownChassisState"
  end.

(** [CHASSIS_SLOT_COUNTS.get(chassis_model_str, DEFAULT_SLOT_COUNT)] *)
Definition total_slots : Z :=
  match chassis_model_str with
  | PStr s => default DEFAULT_SLOT_COUNT (CHASSIS_SLOT_COUNTS !! s)
  | _ => DEFAULT_SLOT_COUNT
  end.

End per_chassis.

(** ** The direct-assignment map *)

Module Details.
Record t : Type := Build { model : pyval; serial : pyval }.
End Details.

(** The [slot_id] under which a blade is recorded; [None] when the blade is
    skipped: no [slot_id] attribute, [slot_id is None], or [int] raised
    [ValueError], which the loop catches. *)
Definition parsed_slot_id (blade : ComputeBlade.t) : option Z :=
  match ComputeBlade.slot_id blade with
  | None => None
  | Some PNone => None
  | Some (PInt z) => Some z
  | Some (PStr s) => int_of_str s
  end.

Section direct_assignment.
(** how the report reads a blade's model and serial *)
Variable details_of : ComputeBlade.t → Details.t.

(** One turn of [for blade in blades_in_chassis_response.results]. *)
Definition record_blade
    (d : odict Z Details.t) (blade : ComputeBlade.t) : odict Z Details.t :=
  match parsed_slot_id blade with
  | Some slot_id => OrderedDict.set slot_id (details_of blade) d
  | None => d
  end.

Definition populate (resp : response ComputeBlade.t) : odict Z Details.t :=
  match usable_results resp with
  | Some blades => foldl record_blade [] blades
  | None => []
  end.

End direct_assignment.

(** [range(a, b)] *)
Definition py_range (a b : Z) : list Z :=
  (λ i : nat, a + Z.of_nat i) <$> seq 0 (Z.to_nat (b - a)).

(** The row written for [slot_num], given the slot map the report consults. *)
Definition slot_row (chassis : EquipmentChassis.t)
    (slots : odict Z Details.t) (slot_num : Z) : row :=
  match OrderedDict.get slot_num slots with
  | Some details =>
      {| Chassis := chassis_name chassis;
         ChassisModel := chassis_model_str chassis;
         ChassisSerial := chassis_serial_str chassis;
         Slot := PInt slot_num;
         BladeModel := Details.model details;
         BladeSerial := Details.serial details;
         OperState := PStr (reported_chassis_oper_state chassis) |}
  | None =>
      {| Chassis := chassis_name chassis;
         ChassisModel := chassis_model_str chassis;
         ChassisSerial := chassis_serial_str chassis;
         Slot := PInt slot_num;
         BladeModel := PStr "";
         BladeSerial := PStr "";
         OperState := PStr "Empty" |}
  end.

(** [for slot_num in range(1, total_slots + 1): writer.writerow(...)] *)
Definition slot_rows (chassis : EquipmentChassis.t)
    (slots : odict Z Details.t) : list line :=
  (λ slot_num, writerow (slot_row chassis slots slot_num))
    <$> py_range 1 (total_slots chassis + 1).

(** ** [blades.py] *)

Module BladesReport.

Definition blade_model_str (blade : ComputeBlade.t) : pyval :=
  attr_or (ComputeBlade.model blade) "UnknownBladeModel".

Definition blade_serial_str (blade : ComputeBlade.t) : pyval :=
  attr_or (ComputeBlade.serial blade) "UnknownBladeSerial".

Definition details_of (blade : ComputeBlade.t) : Details.t :=
  {| Details.model := blade_model_str blade;
     Details.serial := blade_serial_str blade |}.

Definition populated_slots_details
    (resp : response ComputeBlade.t) : odict Z Details.t :=
  populate details_of resp.

(** The rows of one chassis. *)
Definition chassis_rows (api : Api) (chassis : EquipmentChassis.t) : list line :=
  slot_rows chassis
    (populated_slots_details
       (get_compute_blade_list api (chassis_moid chassis))).

(** One turn of [for chassis in all_chassis_response.results]. *)
Definition process_chassis (api : Api)
    (csvfile : list line) (chassis : EquipmentChassis.t) : list line :=
  csvfile ++ chassis_rows api chassis.

(** The file after the loop over the chassis. *)
Definition run (api : Api) (results : list EquipmentChassis.t) : list line :=
  foldl (process_chassis api) [writeheader] results.

Definition main (api : Api) : list line :=
  match usable_results (get_equipment_chassis_list api) with
  | None => [writeheader]
  | Some results => run api results
  end.

End BladesReport.

(** ** [chassis.py] *)

Module ChassisReport.

Definition details_of (blade : ComputeBlade.t) : Details.t :=
  {| Details.model := getattr (ComputeBlade.model blade) "UnknownBladeModel";
     Details.serial := getattr (ComputeBlade.serial blade) "UnknownBladeSerial" |}.

Definition populated_slots_details
    (resp : response ComputeBlade.t) : odict Z Details.t :=
  populate details_of resp.

(** One turn of [for slot_id, details in populated_slots_details.items()]. *)
Definition expand_item (total_slots : Z)
    (expanded : odict Z Details.t) (item : Z * Details.t) : odict Z Details.t :=
  let '(slot_id, details) := item in
  let expanded := OrderedDict.set slot_id details expanded in
  if in_TWO_SLOT_MODELS (Details.model details) then
    let next_slot_id := slot_id + 1 in
    if next_slot_id <=? total_slots
    then OrderedDict.set next_slot_id details expanded
    else expanded
  else expanded.

Definition expanded_slots_details (total_slots : Z)
    (populated : odict Z Details.t) : odict Z Details.t :=
  foldl (expand_item total_slots) [] populated.

(** The Model Summary Counter: chassis model, then status label, to count. *)
Definition summary : Type := odict pyval (odict string Z).

(** [model_summary_counts[model].setdefault(status, 0)] followed by
    [model_summary_counts[model][status] += n]; the entry for [model] is
    there when this runs. *)
Definition add_to_count (model : pyval) (status : string) (n : Z)
    (model_summary_counts : summary) : summary :=
  let status_counts := default [] (OrderedDict.get model model_summary_counts) in
  let status_counts := OrderedDict.setdefault status 0 status_counts in
  let count := default 0 (OrderedDict.get status status_counts) in
  OrderedDict.set model
    (OrderedDict.set status (count + n) status_counts) model_summary_counts.

Definition slots_occupied_by_blades (populated : odict Z Details.t) : Z :=
  foldl (λ acc details,
           acc + if in_TWO_SLOT_MODELS (Details.model details) then 2 else 1)
        0 (OrderedDict.values populated).

(** [chassis.py] lines 119-136. *)
Definition summarise (chassis : EquipmentChassis.t)
    (populated : odict Z Details.t) (model_summary_counts : summary) : summary :=
  let model := chassis_model_str chassis in
  let msc := OrderedDict.setdefault model [] model_summary_counts in
  let msc :=
    foldl (λ msc _,
             add_to_count model (reported_chassis_oper_state chassis) 1 msc)
          msc (OrderedDict.values populated) in
  let num_empty_slots :=
    total_slots chassis - slots_occupied_by_blades populated in
  if 0 <? num_empty_slots
  then add_to_count model "Empty" num_empty_slots msc
  else msc.

Record state : Type :=
  { csvfile : list line;
    model_summary_counts : summary }.

(** The rows of one chassis. *)
Definition chassis_rows (api : Api) (chassis : EquipmentChassis.t) : list line :=
  slot_rows chassis
    (expanded_slots_details (total_slots chassis)
       (populated_slots_details
          (get_compute_blade_list api (chassis_moid chassis)))).

(** One turn of [for chassis in all_chassis_response.results]. *)
Definition process_chassis (api : Api)
    (st : state) (chassis : EquipmentChassis.t) : state :=
  let populated :=
    populated_slots_details
      (get_compute_blade_list api (chassis_moid chassis)) in
  {| model_summary_counts :=
       summarise chassis populated (model_summary_counts st);
     csvfile := csvfile st ++ chassis_rows api chassis |}.

Definition summary_data_row (model : pyval) (item : string * Z) : line :=
  writerow {| Chassis := model; ChassisModel := PStr item.1;
              ChassisSerial := PInt item.2; Slot := PStr "";
              BladeModel := PStr ""; BladeSerial := PStr "";
              OperState := PStr "" |}.

(** [chassis.py] lines 167-184. *)
Definition summary_block (model_summary_counts : summary) : list line :=
  [ writerow blank_row;
    writerow blank_row;
    writerow {| Chassis := PStr "--- Summary by Chassis Model ---";
                ChassisModel := PStr ""; ChassisSerial := PStr "";
                Slot := PStr ""; BladeModel := PStr ""; BladeSerial := PStr "";
                OperState := PStr "" |};
    writerow {| Chassis := PStr "Chassis Model";
                ChassisModel := PStr "Slot Status";
                ChassisSerial := PStr "Count";
                Slot := PStr ""; BladeModel := PStr ""; BladeSerial := PStr "";
                OperState := PStr "" |} ]
  ++ (model_summary_counts ≫= λ entry, summary_data_row entry.1 <$> entry.2).

(** The state after the loop over the chassis. *)
Definition run (api : Api) (results : list EquipmentChassis.t) : state :=
  foldl (process_chassis api)
        {| csvfile := [writeheader]; model_summary_counts := [] |} results.

Definition main (api : Api) : list line :=
  match usable_results (get_equipment_chassis_list api) with
  | None => [writeheader]
  | Some results =>
      let st := run api results in
      csvfile st ++ summary_block (model_summary_counts st)
  end.

End ChassisReport.

(** ** Quantities the summary invariant speaks of *)

(** The sum over all status labels of the counts recorded for [model]. *)
Definition status_total (msc : ChassisReport.summary) (model : pyval) : Z :=
  foldr Z.add 0
    (OrderedDict.values (default [] (OrderedDict.get model msc))).

(** The sum of [total_slots] over the chassis of [model]. *)
Definition fleet_slots (results : list EquipmentChassis.t) (model : pyval) : Z :=
  foldr Z.add 0
    (total_slots <$> filter (λ c, chassis_model_str c = model) results).

(** The [Slot] cell of a line; the header line has none. *)
Definition line_slot (ln : line) : option pyval :=
  match ln with
  | writeheader => None
  | writerow r => Some (Slot r)
  end.

(** The rows among [lines] whose [Slot] cell is [slot_num]. *)
Definition rows_for_slot (slot_num : Z) (lines : list line) : list line :=
  filter (λ ln, line_slot ln = Some (PInt slot_num)) lines.

(** ** Notions the specification uses *)

(** The blades of a response that the loop over the blades visits. *)
Definition blades_of (resp : response ComputeBlade.t) : list ComputeBlade.t :=
  default [] (usable_results resp).

(** A slot index that is missing (no attribute, or [None]) or that cannot be
    parsed as an integer. *)
Definition slot_index_malformed (blade : ComputeBlade.t) : bool :=
  match ComputeBlade.slot_id blade with
  | None => true
  | Some PNone => true
  | Some (PStr s) => bool_decide (int_of_str s = None)
  | Some (PInt _) => false
  end.

(** The blades of a response whose slot index is well formed. *)
Definition well_formed_blades
    (resp : response ComputeBlade.t) : list ComputeBlade.t :=
  filter (λ b, slot_index_malformed b = false) (blades_of resp).

(** Two API states that differ at most in blades of malformed slot index. *)
Definition same_well_formed_blades (api api' : Api) : Prop :=
  get_equipment_chassis_list api = get_equipment_chassis_list api'
  ∧ ∀ moid, well_formed_blades (get_compute_blade_list api moid)
            = well_formed_blades (get_compute_blade_list api' moid).

(** The number of two-slot blades in a direct-assignment map. *)
Definition two_slot_entries (populated : odict Z Details.t) : Z :=
  Z.of_nat (length (filter (λ d, in_TWO_SLOT_MODELS (Details.model d) = true)
                           (OrderedDict.values populated))).

(** The direct-assignment map [chassis.py] builds for a chassis. *)
Definition populated_of (api : Api) (c : EquipmentChassis.t) : odict Z Details.t :=
  ChassisReport.populated_slots_details
    (get_compute_blade_list api (chassis_moid c)).

(** The number of two-slot blades recorded over the chassis of [model]. *)
Definition fleet_two_slot_blades (api : Api)
    (results : list EquipmentChassis.t) (model : pyval) : Z :=
  foldr Z.add 0
    ((λ c, two_slot_entries (populated_of api c))
       <$> filter (λ c, chassis_model_str c = model) results).

(** The cells of a slot row that tell which blade holds the slot. *)
Definition slot_cells (ln : line) : option (pyval * pyval * pyval * pyval) :=
  match ln with
  | writeheader => None
  | writerow r => Some (Slot r, BladeModel r, BladeSerial r, OperState r)
  end.

Definition empty_slot (slot_num : Z) : option (pyval * pyval * pyval * pyval) :=
  Some (PInt slot_num, PStr "", PStr "", PStr "Empty").

(** What one chassis adds to the counts of its model: one per recorded blade,
    and the slots left over, if any, as "Empty". *)
Definition counted (api : Api) (c : EquipmentChassis.t) : Z :=
  Z.of_nat (length (populated_of api c))
  + Z.max 0 (total_slots c
             - ChassisReport.slots_occupied_by_blades (populated_of api c)).

(** What the row [r] of slot [slot_num] must show when the slot map holds
    [claim] there. *)
Definition row_reports (c : EquipmentChassis.t) (slot_num : Z)
    (claim : option Details.t) (r : row) : Prop :=
  Slot r = PInt slot_num ∧
  match claim with
  | Some d =>
      BladeModel r = Details.model d ∧ BladeSerial r = Details.serial d
      ∧ OperState r = PStr (reported_chassis_oper_state c)
  | None =>
      BladeModel r = PStr "" ∧ BladeSerial r = PStr ""
      ∧ OperState r = PStr "Empty"
  end.

(** The [Slot] cells 1, 2, ..., [n]. *)
Definition ascending_slots (n : Z) : list pyval :=
  (λ i : nat, PInt (Z.of_nat i)) <$> seq 1 (Z.to_nat n).

(** ** Sample fleets *)

Module Sample.

Definition blade (slot_id : pyval) (model serial : string) : ComputeBlade.t :=
  {| ComputeBlade.slot_id := Some slot_id;
     ComputeBlade.moid := None;
     ComputeBlade.model := Some (PStr model);
     ComputeBlade.serial := Some (PStr serial) |}.

Definition chassis (oper_state : option pyval) : EquipmentChassis.t :=
  {| EquipmentChassis.name := Some (PStr "chassis-1");
     EquipmentChassis.moid := Some (PStr "moid-1");
     EquipmentChassis.model := Some (PStr "UCSB-5108-AC2");
     EquipmentChassis.serial := Some (PStr "FOX1");
     EquipmentChassis.oper_state := oper_state |}.

Definition operable : EquipmentChassis.t := chassis (Some (PStr "operable")).

(** One chassis list, and the same blades whatever the chassis. *)
Definition api (chassis_list : response EquipmentChassis.t)
    (blades : list ComputeBlade.t) : Api :=
  {| get_equipment_chassis_list := chassis_list;
     get_compute_blade_list := λ _, Response (Some (Some blades)) |}.

Definition fleet (blades : list ComputeBlade.t) : Api :=
  api (Response (Some (Some [operable]))) blades.

End Sample.

(** ** Further notions: the summary, label by label *)

(** The count recorded for [status] under [model]; 0 when there is none. *)
Definition label_count (msc : ChassisReport.summary)
    (model : pyval) (status : string) : Z :=
  default 0 (OrderedDict.get status (default [] (OrderedDict.get model msc))).

(** What one chassis adds to the count of [status] of its model: its recorded
    blades when [status] is its state, the slots left over when [status] is
    "Empty". *)
Definition counted_as (api : Api) (c : EquipmentChassis.t) (status : string) : Z :=
  (if decide (reported_chassis_oper_state c = status)
   then Z.of_nat (length (populated_of api c)) else 0)
  + (if decide (status = "Empty")
     then Z.max 0 (total_slots c
                   - ChassisReport.slots_occupied_by_blades (populated_of api c))
     else 0).

(** The distinct elements of a list, in the order of their first occurrence. *)
Definition first_seen {A} `{EqDecision A} (l : list A) : list A :=
  foldl (λ seen x, if decide (x ∈ seen) then seen else seen ++ [x]) [] l.

(** A blade whose slot index parses to a number from [lo] to [hi]. *)
Definition slot_within (lo hi : Z) (blade : ComputeBlade.t) : bool :=
  match parsed_slot_id blade with
  | Some k => (lo <=? k) && (k <=? hi)
  | None => false
  end.

(** A string that does not begin with white space. *)
Definition starts_trimmed (s : string) : Prop :=
  match s with
  | String c _ => py_isspace c = false
  | EmptyString => True
  end.

(** A summary whose models are distinct, whose labels are distinct under each
    model, and whose counts are positive and of labels that [Q] admits. *)
Definition summary_well_formed (Q : pyval → string → Prop)
    (msc : ChassisReport.summary) : Prop :=
  NoDup (OrderedDict.keys msc)
  ∧ ∀ model sc, OrderedDict.get model msc = Some sc →
      NoDup (OrderedDict.keys sc)
      ∧ ∀ status n, OrderedDict.get status sc = Some n → 0 < n ∧ Q model status.

(** The labels under which the chassis of [results] can be counted. *)
Definition label_of_fleet (results : list EquipmentChassis.t)
    (model : pyval) (status : string) : Prop :=
  ∃ c, c ∈ results ∧ chassis_model_str c = model
       ∧ (status = "Empty" ∨ status = reported_chassis_oper_state c).

(** ** API calls that raise

    Both [main] functions run their loop inside [with open(...)], inside
    [try].  The embedding below takes the file as opened and the writes as
    succeeding; the calls of the API client are then the statements of the
    block that can raise.  When one does, the [with] block is left and the
    file closed with the lines written so far, whatever the handlers of
    [main] do afterwards (what they log is not part of the embedding). *)

Module Failing.

(** The outcome of a call of the API client. *)
Inductive call (A : Type) : Type :=
  | Returns (resp : response A)
  | Raises.
#[global] Arguments Returns {A} resp.
#[global] Arguments Raises {A}.

Record Client : Type :=
  { chassis_list_call : call EquipmentChassis.t;
    blade_list_call : pyval → call ComputeBlade.t }.

(** What a run leaves: the lines of the file, and whether a call raised and
    so cut the [with] block short. *)
Record outcome : Type :=
  { written : list line;
    interrupted : bool }.

(** [for chassis in all_chassis_response.results] of [blades.py]. *)
Fixpoint blades_loop (api : Client) (csvfile : list line)
    (results : list EquipmentChassis.t) : outcome :=
  match results with
  | [] => {| written := csvfile; interrupted := false |}
  | chassis :: rest =>
      match blade_list_call api (chassis_moid chassis) with
      | Raises => {| written := csvfile; interrupted := true |}
      | Returns resp =>
          blades_loop api
            (csvfile
             ++ slot_rows chassis (BladesReport.populated_slots_details resp))
            rest
      end
  end.

Definition blades_main (api : Client) : outcome :=
  match chassis_list_call api with
  | Raises => {| written := [writeheader]; interrupted := true |}
  | Returns all_chassis_response =>
      match usable_results all_chassis_response with
      | None => {| written := [writeheader]; interrupted := false |}
      | Some results => blades_loop api [writeheader] results
      end
  end.

(** [for chassis in all_chassis_response.results] of [chassis.py]; the
    boolean tells whether a call raised. *)
Fixpoint chassis_loop (api : Client) (st : ChassisReport.state)
    (results : list EquipmentChassis.t) : ChassisReport.state * bool :=
  match results with
  | [] => (st, false)
  | chassis :: rest =>
      match blade_list_call api (chassis_moid chassis) with
      | Raises => (st, true)
      | Returns resp =>
          let populated := ChassisReport.populated_slots_details resp in
          chassis_loop api
            {| ChassisReport.model_summary_counts :=
                 ChassisReport.summarise chassis populated
                   (ChassisReport.model_summary_counts st);
               ChassisReport.csvfile :=
                 ChassisReport.csvfile st
                 ++ slot_rows chassis
                      (ChassisReport.expanded_slots_details
                         (total_slots chassis) populated) |}
            rest
      end
  end.

Definition chassis_main (api : Client) : outcome :=
  match chassis_list_call api with
  | Raises => {| written := [writeheader]; interrupted := true |}
  | Returns all_chassis_response =>
      match usable_results all_chassis_response with
      | None => {| written := [writeheader]; interrupted := false |}
      | Some results =>
          let '(st, raised) :=
            chassis_loop api
              {| ChassisReport.csvfile := [writeheader];
                 ChassisReport.model_summary_counts := [] |} results in
          if raised
          then {| written := ChassisReport.csvfile st; interrupted := true |}
          else {| written :=
                    ChassisReport.csvfile st
                    ++ ChassisReport.summary_block
                         (ChassisReport.model_summary_counts st);
                  interrupted := false |}
      end
  end.

(** [api] answers as [client] does wherever [client] returns. *)
Definition agrees (client : Client) (api : Api) : Prop :=
  (∀ resp, chassis_list_call client = Returns resp →
           get_equipment_chassis_list api = resp)
  ∧ (∀ moid resp, blade_list_call client moid = Returns resp →
                  get_compute_blade_list api moid = resp).

(** The blade-list call for [chassis] returns. *)
Definition blades_fetched (client : Client) (chassis : EquipmentChassis.t) : Prop :=
  ∃ resp, blade_list_call client (chassis_moid chassis) = Returns resp.

End Failing.

(** ** The exceptions of the loop over the blades

    The loop over the blades wraps [int(blade.slot_id)] in [try] with a
    handler for [ValueError] alone.  Here the exception that [int] raises is
    explicit, and so is what the handler lets through. *)

Module Raising.

Inductive exception : Type :=
  | ValueError
  | TypeError.

(** [int(v)] *)
Definition int (v : pyval) : exception + Z :=
  match v with
  | PInt z => inr z
  | PStr s =>
      match int_of_str s with
      | Some z => inr z
      | None => inl ValueError
      end
  | PNone => inl TypeError
  end.

(** One turn of [for blade in blades_in_chassis_response.results]: the map
    after the turn, or the exception that leaves it. *)
Definition record_blade (details_of : ComputeBlade.t → Details.t)
    (d : odict Z Details.t) (blade : ComputeBlade.t)
    : exception + odict Z Details.t :=
  match ComputeBlade.slot_id blade with
  | None => inr d
  | Some v =>
      if decide (v = PNone) then inr d
      else
        match int v with
        | inr slot_id => inr (OrderedDict.set slot_id (details_of blade) d)
        | inl ValueError => inr d
        | inl e => inl e
        end
  end.

Fixpoint blade_loop (details_of : ComputeBlade.t → Details.t)
    (d : odict Z Details.t) (blades : list ComputeBlade.t)
    : exception + odict Z Details.t :=
  match blades with
  | [] => inr d
  | blade :: rest =>
      match record_blade details_of d blade with
      | inr d' => blade_loop details_of d' rest
      | inl e => inl e
      end
  end.

End Raising.

(** The chassis that the loop of either report visits. *)
Definition chassis_of (api : Api) : list EquipmentChassis.t :=
  default [] (usable_results (get_equipment_chassis_list api)).

(** * Properties *)

(** ** Ordered dictionaries *)

Section odict_facts.
Context {K V : Type} `{EqDecision K}.
Implicit Types (k : K) (v : V) (d : odict K V).
Import OrderedDict.

Lemma get_set_eq k v d : get k (set k v d) = Some v.
Proof.
  induction d as [|[k' v'] r IH]; simpl.
  - by rewrite decide_True.
  - destruct (decide (k = k')) as [->|Hne]; simpl.
    + by rewrite decide_True.
    + by rewrite decide_False.
Qed.

Lemma get_set_ne k k' v d : k ≠ k' → get k' (set k v d) = get k' d.
Proof.
  intros Hne. induction d as [|[k0 v0] r IH]; simpl.
  - by rewrite decide_False.
  - destruct (decide (k = k0)) as [->|Hne0]; simpl.
    + by rewrite !decide_False.
    + by rewrite IH.
Qed.

Lemma get_set k k' v d :
  get k' (set k v d) = if decide (k = k') then Some v else get k' d.
Proof.
  destruct (decide (k = k')) as [->|Hne];
    [apply get_set_eq | by apply get_set_ne].
Qed.

Lemma get_None_keys k d : get k d = None ↔ k ∉ keys d.
Proof.
  unfold keys. induction d as [|[k' v'] r IH]; csimpl.
  - split; [intros _; apply not_elem_of_nil | done].
  - rewrite not_elem_of_cons. destruct (decide (k = k')) as [->|Hne].
    + split; [done | by intros [? _]].
    + rewrite IH. tauto.
Qed.

Lemma get_Some_elem k v d : get k d = Some v → (k, v) ∈ d.
Proof.
  induction d as [|[k' v'] r IH]; simpl; [done|].
  destruct (decide (k = k')) as [->|Hne].
  - intros [= ->]. apply elem_of_cons; by left.
  - intros H. apply elem_of_cons; right; auto.
Qed.

Lemma mem_keys k d : mem k d = true ↔ k ∈ keys d.
Proof.
  unfold mem. rewrite bool_decide_eq_true.
  destruct (get k d) as [v|] eqn:E.
  - split; [intros _ | by eauto].
    destruct (decide (k ∈ keys d)) as [|Hn]; [done|].
    apply get_None_keys in Hn. congruence.
  - split; [by intros [? ?] |].
    intros Hin. by apply get_None_keys in E.
Qed.

Lemma keys_set k v d :
  keys (set k v d) = if mem k d then keys d else keys d ++ [k].
Proof.
  unfold keys, mem. induction d as [|[k' v'] r IH]; csimpl; [done|].
  destruct (decide (k = k')) as [->|Hne]; csimpl.
  - done.
  - rewrite IH. by destruct (bool_decide (is_Some (get k r))).
Qed.

Lemma NoDup_keys_set k v d : NoDup (keys d) → NoDup (keys (set k v d)).
Proof.
  intros Hnd. rewrite keys_set. destruct (mem k d) eqn:E; [done|].
  apply NoDup_app. split_and!; [done | | apply NoDup_singleton].
  intros x Hx ->%list_elem_of_singleton.
  apply mem_keys in Hx. congruence.
Qed.

Lemma elem_is_Some k v d : (k, v) ∈ d → is_Some (get k d).
Proof.
  intros Hin. destruct (get k d) as [v'|] eqn:E; [by eauto|].
  apply get_None_keys in E. destruct E.
  unfold keys. apply list_elem_of_fmap. by exists (k, v).
Qed.

(** With distinct keys, an entry of the list is what [get] returns. *)
Lemma elem_get k v d : NoDup (keys d) → (k, v) ∈ d → get k d = Some v.
Proof.
  unfold keys. induction d as [|[k' v'] r IH]; csimpl.
  - by intros _ ?%elem_of_nil.
  - intros [Hk Hnd]%NoDup_cons [[= -> ->]|Hin]%elem_of_cons.
    + by rewrite decide_True.
    + rewrite decide_False; [by apply IH|].
      intros ->. apply Hk. by apply (list_elem_of_fmap_2 fst _ (k', v)).
Qed.

End odict_facts.

(** ** Ranges and the capacity table *)

Lemma py_range_from_1 (n : Z) :
  py_range 1 (n + 1) = Z.of_nat <$> seq 1 (Z.to_nat n).
Proof.
  unfold py_range. replace (n + 1 - 1) with n by lia.
  rewrite <- fmap_S_seq, <- list_fmap_compose.
  apply list_fmap_ext. intros _ i _. simpl. lia.
Qed.

Lemma elem_of_py_range_from_1 (n i : Z) :
  i ∈ py_range 1 (n + 1) ↔ 1 ≤ i ≤ n.
Proof.
  rewrite py_range_from_1, list_elem_of_fmap. split.
  - intros (j & -> & Hj%elem_of_seq). lia.
  - intros Hi. exists (Z.to_nat i). split; [lia|].
    apply elem_of_seq. lia.
Qed.

Lemma NoDup_py_range_from_1 (n : Z) : NoDup (py_range 1 (n + 1)).
Proof.
  rewrite py_range_from_1. apply NoDup_fmap_2; [|apply NoDup_seq].
  intros i j. lia.
Qed.

Lemma CHASSIS_SLOT_COUNTS_lookup (s : string) (n : Z) :
  CHASSIS_SLOT_COUNTS !! s = Some n → n = 8.
Proof.
  unfold CHASSIS_SLOT_COUNTS. rewrite !lookup_insert, lookup_empty.
  repeat case_decide; congruence.
Qed.

Lemma total_slots_nonneg (c : EquipmentChassis.t) : 0 ≤ total_slots c.
Proof.
  unfold total_slots, DEFAULT_SLOT_COUNT.
  destruct (chassis_model_str c) as [|z|s]; simpl; try lia.
  destruct (CHASSIS_SLOT_COUNTS !! s) as [n|] eqn:E; simpl; [|lia].
  apply CHASSIS_SLOT_COUNTS_lookup in E. lia.
Qed.

(** ** The rows of a chassis *)

Lemma slot_rows_eq (c : EquipmentChassis.t) (slots : odict Z Details.t) :
  slot_rows c slots =
    writerow <$> (slot_row c slots <$> py_range 1 (total_slots c + 1)).
Proof. unfold slot_rows. by rewrite <- list_fmap_compose. Qed.

Lemma Slot_slot_row c slots i : Slot (slot_row c slots i) = PInt i.
Proof. unfold slot_row. by destruct (OrderedDict.get i slots). Qed.

Lemma slot_rows_Slot (c : EquipmentChassis.t) (slots : odict Z Details.t) :
  Slot <$> (slot_row c slots <$> py_range 1 (total_slots c + 1)) =
    (λ i : nat, PInt (Z.of_nat i)) <$> seq 1 (Z.to_nat (total_slots c)).
Proof.
  rewrite py_range_from_1, <- !list_fmap_compose.
  apply list_fmap_ext. intros _ i _. simpl. apply Slot_slot_row.
Qed.

Lemma slot_rows_lookup c slots (i : Z) :
  1 ≤ i ≤ total_slots c →
  slot_rows c slots !! Z.to_nat (i - 1) = Some (writerow (slot_row c slots i)).
Proof.
  intros Hi. unfold slot_rows. rewrite py_range_from_1, <- list_fmap_compose.
  rewrite list_lookup_fmap, lookup_seq_lt by lia. simpl.
  do 3 f_equal. lia.
Qed.

Lemma rows_for_slot_fmap (f : Z → row) (l : list Z) (k : Z) :
  (∀ j, Slot (f j) = PInt j) → NoDup l → k ∈ l →
  rows_for_slot k ((λ j, writerow (f j)) <$> l) = [writerow (f k)].
Proof.
  intros Hf. unfold rows_for_slot.
  induction l as [|j l IH]; [by intros _ ?%elem_of_nil|].
  intros [Hj Hnd]%NoDup_cons Hk. csimpl.
  destruct (decide (j = k)) as [->|Hne].
  - rewrite filter_cons_True by (simpl; by rewrite Hf). f_equal.
    clear IH Hk. induction l as [|j l IH]; [done|]. csimpl.
    apply not_elem_of_cons in Hj as [Hne Hj]. apply NoDup_cons in Hnd as [_ Hnd].
    rewrite filter_cons_False; [by apply IH|].
    simpl. rewrite Hf. congruence.
  - rewrite filter_cons_False by (simpl; rewrite Hf; congruence).
    apply IH; [done|]. apply elem_of_cons in Hk as [->|Hk]; done.
Qed.

Lemma rows_for_slot_slot_rows c slots (k : Z) :
  1 ≤ k ≤ total_slots c →
  rows_for_slot k (slot_rows c slots) = [writerow (slot_row c slots k)].
Proof.
  intros Hk. unfold slot_rows.
  apply (rows_for_slot_fmap (slot_row c slots)).
  - apply Slot_slot_row.
  - apply NoDup_py_range_from_1.
  - by apply elem_of_py_range_from_1.
Qed.

(** ** The loop over the chassis *)

Lemma BladesReport_foldl api (results : list EquipmentChassis.t) (out : list line) :
  foldl (BladesReport.process_chassis api) out results =
    out ++ (results ≫= BladesReport.chassis_rows api).
Proof.
  revert out. induction results as [|c results IH]; intros out; csimpl.
  - by rewrite app_nil_r.
  - rewrite IH. unfold BladesReport.process_chassis. by rewrite <- app_assoc.
Qed.

Lemma ChassisReport_foldl_csvfile api
    (results : list EquipmentChassis.t) (st : ChassisReport.state) :
  ChassisReport.csvfile (foldl (ChassisReport.process_chassis api) st results) =
    ChassisReport.csvfile st ++ (results ≫= ChassisReport.chassis_rows api).
Proof.
  revert st. induction results as [|c results IH]; intros st; csimpl.
  - by rewrite app_nil_r.
  - rewrite IH. simpl. by rewrite <- app_assoc.
Qed.

(** ** The direct-assignment map *)

Lemma parsed_slot_id_malformed (b : ComputeBlade.t) :
  slot_index_malformed b = true ↔ parsed_slot_id b = None.
Proof.
  unfold slot_index_malformed, parsed_slot_id.
  destruct (ComputeBlade.slot_id b) as [[|z|s]|]; try done.
  by rewrite bool_decide_eq_true.
Qed.

Section populate_facts.
Variable details_of : ComputeBlade.t → Details.t.
Implicit Types (d : odict Z Details.t) (l : list ComputeBlade.t).

Lemma populate_blades_of resp :
  populate details_of resp = foldl (record_blade details_of) [] (blades_of resp).
Proof. unfold populate, blades_of. by destruct (usable_results resp). Qed.

Lemma record_blade_skip d b :
  parsed_slot_id b = None → record_blade details_of d b = d.
Proof. unfold record_blade. by intros ->. Qed.

Lemma foldl_record_blade_untouched (k : Z) d l :
  (∀ b, b ∈ l → parsed_slot_id b ≠ Some k) →
  OrderedDict.get k (foldl (record_blade details_of) d l) = OrderedDict.get k d.
Proof.
  revert d. induction l as [|b l IH]; intros d Hl; [done|]. simpl.
  rewrite IH by (intros b' Hb'; apply Hl; by apply elem_of_cons; right).
  unfold record_blade.
  destruct (parsed_slot_id b) as [j|] eqn:E; [|done].
  apply get_set_ne. intros ->. by apply (Hl b); [apply elem_of_cons; left|].
Qed.

Lemma foldl_record_blade_last (k : Z) d l1 b l2 :
  parsed_slot_id b = Some k →
  (∀ b', b' ∈ l2 → parsed_slot_id b' ≠ Some k) →
  OrderedDict.get k (foldl (record_blade details_of) d (l1 ++ b :: l2))
    = Some (details_of b).
Proof.
  intros Hb Hl2. rewrite foldl_app. simpl.
  rewrite foldl_record_blade_untouched by done.
  unfold record_blade at 1. rewrite Hb. apply get_set_eq.
Qed.

Lemma foldl_record_blade_NoDup d l :
  NoDup (OrderedDict.keys d) →
  NoDup (OrderedDict.keys (foldl (record_blade details_of) d l)).
Proof.
  revert d. induction l as [|b l IH]; intros d Hd; [done|]. simpl.
  apply IH. unfold record_blade.
  destruct (parsed_slot_id b); [by apply NoDup_keys_set | done].
Qed.

Lemma foldl_record_blade_origin (k : Z) (v : Details.t) d l :
  OrderedDict.get k (foldl (record_blade details_of) d l) = Some v →
  OrderedDict.get k d = Some v
  ∨ ∃ b, b ∈ l ∧ parsed_slot_id b = Some k ∧ details_of b = v.
Proof.
  revert d. induction l as [|b l IH]; intros d; [by left|]. simpl.
  intros [Hd|(b' & Hb' & Hk & Hv)]%IH.
  - unfold record_blade in Hd.
    destruct (parsed_slot_id b) as [j|] eqn:E; [|by left].
    rewrite get_set in Hd. case_decide as Hj; [|by left].
    subst j. injection Hd as <-. right. exists b.
    split_and!; [apply elem_of_cons; by left | done | done].
  - right. exists b'. split_and!; [apply elem_of_cons; by right | done | done].
Qed.

Lemma foldl_record_blade_filter d l :
  foldl (record_blade details_of) d
        (filter (λ b, slot_index_malformed b = false) l)
  = foldl (record_blade details_of) d l.
Proof.
  revert d. induction l as [|b l IH]; intros d; [done|].
  destruct (slot_index_malformed b) eqn:E.
  - rewrite filter_cons_False by (rewrite E; done). simpl.
    rewrite record_blade_skip by (by apply parsed_slot_id_malformed).
    apply IH.
  - rewrite filter_cons_True by done. simpl. apply IH.
Qed.

Lemma populate_well_formed resp :
  populate details_of resp
  = foldl (record_blade details_of) [] (well_formed_blades resp).
Proof.
  rewrite populate_blades_of. unfold well_formed_blades.
  by rewrite foldl_record_blade_filter.
Qed.

Lemma populate_NoDup resp : NoDup (OrderedDict.keys (populate details_of resp)).
Proof.
  rewrite populate_blades_of. apply foldl_record_blade_NoDup. constructor.
Qed.

Lemma populate_origin (k : Z) (v : Details.t) resp :
  OrderedDict.get k (populate details_of resp) = Some v →
  ∃ b, b ∈ blades_of resp ∧ parsed_slot_id b = Some k ∧ details_of b = v.
Proof.
  rewrite populate_blades_of. intros [?|?]%foldl_record_blade_origin; done.
Qed.

End populate_facts.

(** ** The two-slot expansion of [chassis.py] *)

Section expansion_facts.
Import ChassisReport.
Variable total_slots : Z.
Implicit Types (e l : odict Z Details.t) (d v : Details.t) (j k : Z).

Lemma expand_item_untouched k e j d :
  j ≠ k → j + 1 ≠ k →
  OrderedDict.get k (expand_item total_slots e (j, d)) = OrderedDict.get k e.
Proof.
  intros Hj Hj1. unfold expand_item.
  destruct (in_TWO_SLOT_MODELS _); [destruct (_ <=? _)|];
    by rewrite ?get_set_ne.
Qed.

Lemma expand_item_direct e j d :
  OrderedDict.get j (expand_item total_slots e (j, d)) = Some d.
Proof.
  unfold expand_item.
  destruct (in_TWO_SLOT_MODELS _); [destruct (_ <=? _)|];
    rewrite ?get_set_ne by lia; apply get_set_eq.
Qed.

Lemma expand_item_next e j d :
  in_TWO_SLOT_MODELS (Details.model d) = true → j + 1 ≤ total_slots →
  OrderedDict.get (j + 1) (expand_item total_slots e (j, d)) = Some d.
Proof.
  intros Hd Hj. unfold expand_item. rewrite Hd.
  destruct (Z.leb_spec (j + 1) total_slots); [|lia]. apply get_set_eq.
Qed.

Lemma expand_item_origin k v e j d :
  OrderedDict.get k (expand_item total_slots e (j, d)) = Some v →
  OrderedDict.get k e = Some v
  ∨ (k = j ∧ v = d)
  ∨ (k = j + 1 ∧ v = d
     ∧ in_TWO_SLOT_MODELS (Details.model d) = true ∧ k ≤ total_slots).
Proof.
  unfold expand_item.
  destruct (in_TWO_SLOT_MODELS _) eqn:Hd;
    [destruct (Z.leb_spec (j + 1) total_slots)|];
    rewrite ?get_set; repeat case_decide; intros Hk; simplify_eq; auto.
  right; right. split_and!; done.
Qed.

Lemma expand_item_keeps k e j d :
  is_Some (OrderedDict.get k e) →
  is_Some (OrderedDict.get k (expand_item total_slots e (j, d))).
Proof.
  intros He. unfold expand_item.
  destruct (in_TWO_SLOT_MODELS _); [destruct (_ <=? _)|];
    rewrite ?get_set; repeat case_decide; eauto.
Qed.

Lemma foldl_expand_untouched k e l :
  (∀ j d, (j, d) ∈ l → j ≠ k ∧ j + 1 ≠ k) →
  OrderedDict.get k (foldl (expand_item total_slots) e l) = OrderedDict.get k e.
Proof.
  revert e. induction l as [|[j d] l IH]; intros e Hl; [done|]. simpl.
  rewrite IH by (intros j' d' H'; apply (Hl j' d'); by apply elem_of_cons; right).
  destruct (Hl j d) as [? ?]; [apply elem_of_cons; by left|].
  by apply expand_item_untouched.
Qed.

Lemma foldl_expand_keeps k e l :
  is_Some (OrderedDict.get k e) →
  is_Some (OrderedDict.get k (foldl (expand_item total_slots) e l)).
Proof.
  revert e. induction l as [|[j d] l IH]; intros e He; [done|]. simpl.
  by apply IH, expand_item_keeps.
Qed.

Lemma foldl_expand_origin k v e l :
  OrderedDict.get k (foldl (expand_item total_slots) e l) = Some v →
  OrderedDict.get k e = Some v
  ∨ (k, v) ∈ l
  ∨ ((k - 1, v) ∈ l
     ∧ in_TWO_SLOT_MODELS (Details.model v) = true ∧ k ≤ total_slots).
Proof.
  revert e. induction l as [|[j d] l IH]; intros e; [by left|]. simpl.
  intros [He|[Hl|(Hl & Hv & Hk)]]%IH.
  - apply expand_item_origin in He as [He|[[-> ->]|(-> & -> & Hd & Hk)]].
    + by left.
    + right; left. apply elem_of_cons; by left.
    + right; right. split_and!; [|done..].
      replace (j + 1 - 1) with j by lia. apply elem_of_cons; by left.
  - right; left. apply elem_of_cons; by right.
  - right; right. split_and!; [apply elem_of_cons; by right | done..].
Qed.

Lemma foldl_expand_direct e l j d :
  (j, d) ∈ l →
  is_Some (OrderedDict.get j (foldl (expand_item total_slots) e l)).
Proof.
  revert e. induction l as [|[j' d'] l IH]; intros e; [by intros ?%elem_of_nil|].
  intros [[= -> ->]|Hl]%elem_of_cons; cbn [foldl].
  - apply foldl_expand_keeps. rewrite expand_item_direct. eauto.
  - by apply IH.
Qed.

Lemma foldl_expand_next e l j d :
  (j, d) ∈ l →
  in_TWO_SLOT_MODELS (Details.model d) = true → j + 1 ≤ total_slots →
  is_Some (OrderedDict.get (j + 1) (foldl (expand_item total_slots) e l)).
Proof.
  revert e. induction l as [|[j' d'] l IH]; intros e; [by intros ?%elem_of_nil|].
  intros [[= -> ->]|Hl]%elem_of_cons Hd Hj; cbn [foldl].
  - apply foldl_expand_keeps. rewrite expand_item_next by done. eauto.
  - by apply IH.
Qed.

(** The entry of the expanded map at [k] is written by the last item of the
    direct map that touches [k]. *)
Lemma expanded_last_writer k v l1 j d l2 :
  OrderedDict.get k (expand_item total_slots [] (j, d)) = Some v →
  (∀ j' d', (j', d') ∈ l2 → j' ≠ k ∧ j' + 1 ≠ k) →
  OrderedDict.get k (expanded_slots_details total_slots (l1 ++ (j, d) :: l2))
    = Some v.
Proof.
  intros Hw Hl2. unfold expanded_slots_details.
  rewrite foldl_app. simpl. rewrite foldl_expand_untouched by done.
  apply expand_item_origin in Hw as [Hw|[[-> ->]|(-> & -> & Hd & Hk)]].
  - done.
  - apply expand_item_direct.
  - by apply expand_item_next.
Qed.

End expansion_facts.

(** ** The summary counts of [chassis.py] *)

Section summary_facts.
Import ChassisReport.
Implicit Types (msc : summary) (sc : odict string Z) (m model : pyval).

Lemma sum_values_set (k : string) (n : Z) sc :
  foldr Z.add 0 (OrderedDict.values (OrderedDict.set k n sc))
  = foldr Z.add 0 (OrderedDict.values sc)
    - default 0 (OrderedDict.get k sc) + n.
Proof.
  unfold OrderedDict.values.
  induction sc as [|[k' n'] sc IH]; csimpl; [lia|].
  destruct (decide (k = k')) as [->|Hne]; csimpl; [lia|].
  rewrite IH. lia.
Qed.

Lemma sum_values_bump (k : string) (n : Z) sc :
  let sc' := OrderedDict.setdefault k 0 sc in
  foldr Z.add 0
    (OrderedDict.values
       (OrderedDict.set k (default 0 (OrderedDict.get k sc') + n) sc'))
  = foldr Z.add 0 (OrderedDict.values sc) + n.
Proof.
  unfold OrderedDict.setdefault.
  destruct (OrderedDict.get k sc) as [c|] eqn:E; simpl.
  - rewrite sum_values_set, E. simpl. lia.
  - rewrite !sum_values_set, get_set_eq, E. simpl. lia.
Qed.

Lemma status_total_add_to_count model (status : string) (n : Z) msc m :
  status_total (add_to_count model status n msc) m
  = status_total msc m + if decide (model = m) then n else 0.
Proof.
  unfold status_total, add_to_count. rewrite get_set.
  destruct (decide (model = m)) as [->|Hne]; simpl; [|lia].
  apply sum_values_bump.
Qed.

Lemma status_total_setdefault model msc m :
  status_total (OrderedDict.setdefault model [] msc) m = status_total msc m.
Proof.
  unfold status_total, OrderedDict.setdefault.
  case_match eqn:E; [done|].
  rewrite get_set. destruct (decide (model = m)) as [->|Hne]; [|done].
  unfold OrderedDict.odict in *. by rewrite E.
Qed.

Lemma status_total_count_blades model (status : string)
    (l : list Details.t) msc m :
  status_total (foldl (λ msc _, add_to_count model status 1 msc) msc l) m
  = status_total msc m + if decide (model = m) then Z.of_nat (length l) else 0.
Proof.
  revert msc. induction l as [|d l IH]; intros msc; simpl.
  - case_decide; lia.
  - rewrite IH, status_total_add_to_count. case_decide; lia.
Qed.

Lemma slots_occupied_by_blades_eq (populated : odict Z Details.t) :
  slots_occupied_by_blades populated
  = Z.of_nat (length populated) + two_slot_entries populated.
Proof.
  unfold slots_occupied_by_blades, two_slot_entries, OrderedDict.values.
  rewrite <- (length_fmap snd populated).
  generalize (populated.*2). intros l.
  cut (∀ acc,
    foldl (λ acc d, acc + if in_TWO_SLOT_MODELS (Details.model d) then 2 else 1)
          acc l
    = acc + Z.of_nat (length l)
      + Z.of_nat (length (filter
          (λ d, in_TWO_SLOT_MODELS (Details.model d) = true) l))).
  { intros ->. lia. }
  induction l as [|d l IH]; intros acc; simpl; [lia|].
  rewrite IH. destruct (in_TWO_SLOT_MODELS (Details.model d)) eqn:E.
  - rewrite filter_cons_True by done. simpl. lia.
  - rewrite filter_cons_False by (rewrite E; done). lia.
Qed.

Lemma status_total_summarise api (c : EquipmentChassis.t) msc m :
  status_total (summarise c (populated_of api c) msc) m
  = status_total msc m
    + if decide (chassis_model_str c = m) then counted api c else 0.
Proof.
  unfold summarise, counted.
  destruct (Z.ltb_spec 0
    (total_slots c - slots_occupied_by_blades (populated_of api c))).
  - rewrite status_total_add_to_count, status_total_count_blades,
      status_total_setdefault.
    unfold OrderedDict.values. rewrite length_fmap. case_decide; lia.
  - rewrite status_total_count_blades, status_total_setdefault.
    unfold OrderedDict.values. rewrite length_fmap. case_decide; lia.
Qed.

Lemma status_total_foldl api (results : list EquipmentChassis.t)
    (st : state) m :
  status_total (model_summary_counts (foldl (process_chassis api) st results)) m
  = status_total (model_summary_counts st) m
    + foldr Z.add 0
        (counted api <$> filter (λ c, chassis_model_str c = m) results).
Proof.
  revert st. induction results as [|c results IH]; intros st; simpl; [lia|].
  rewrite IH. unfold process_chassis at 1. cbn [model_summary_counts].
  fold (populated_of api c). rewrite status_total_summarise.
  destruct (decide (chassis_model_str c = m)) as [Hc|Hc].
  - rewrite filter_cons_True by done. csimpl. lia.
  - rewrite filter_cons_False by done. lia.
Qed.

End summary_facts.

(** ** The blade behind an entry *)

Section last_blade.
Variable details_of : ComputeBlade.t → Details.t.
Implicit Types (d : odict Z Details.t) (l : list ComputeBlade.t).

(** Either no blade of [l] parses to [k], or one is the last to do so. *)
Lemma last_parsing (k : Z) l :
  (∀ b, b ∈ l → parsed_slot_id b ≠ Some k)
  ∨ ∃ l1 b l2, l = l1 ++ b :: l2 ∧ parsed_slot_id b = Some k
               ∧ ∀ b', b' ∈ l2 → parsed_slot_id b' ≠ Some k.
Proof.
  induction l as [|b l [Hnone|(l1 & b0 & l2 & -> & Hb0 & Hl2)]].
  - left. by intros b ?%elem_of_nil.
  - destruct (decide (parsed_slot_id b = Some k)) as [Hb|Hb].
    + right. by exists [], b, l.
    + left. intros b' [->|Hb']%elem_of_cons; [done | by apply Hnone].
  - right. by exists (b :: l1), b0, l2.
Qed.

Lemma populate_entry_last (k : Z) (v : Details.t) resp :
  OrderedDict.get k (populate details_of resp) = Some v →
  ∃ l1 b l2, blades_of resp = l1 ++ b :: l2 ∧ parsed_slot_id b = Some k
             ∧ (∀ b', b' ∈ l2 → parsed_slot_id b' ≠ Some k)
             ∧ details_of b = v.
Proof.
  rewrite populate_blades_of.
  destruct (last_parsing k (blades_of resp))
    as [Hnone|(l1 & b & l2 & Hl & Hb & Hl2)].
  - by rewrite foldl_record_blade_untouched.
  - rewrite Hl, foldl_record_blade_last by done. intros [= <-].
    by exists l1, b, l2.
Qed.

Lemma populate_no_entry (k : Z) resp :
  OrderedDict.get k (populate details_of resp) = None →
  ∀ b, b ∈ blades_of resp → parsed_slot_id b ≠ Some k.
Proof.
  rewrite populate_blades_of.
  destruct (last_parsing k (blades_of resp))
    as [Hnone|(l1 & b & l2 & Hl & Hb & Hl2)]; [done|].
  by rewrite Hl, foldl_record_blade_last.
Qed.

End last_blade.

(** ** Entries that the expansion leaves alone *)

Section expansion_beyond.
Import ChassisReport.
Variable total_slots : Z.
Implicit Types (e l : odict Z Details.t) (d v : Details.t) (j k : Z).

(** An item touches nothing but its own slot and, when it is a two-slot
    model and the next slot exists, the next slot. *)
Lemma expand_item_untouched_gen k e j d :
  j ≠ k →
  (j + 1 = k →
   in_TWO_SLOT_MODELS (Details.model d) = false ∨ total_slots < k) →
  OrderedDict.get k (expand_item total_slots e (j, d)) = OrderedDict.get k e.
Proof.
  intros Hj Hnext. unfold expand_item.
  destruct (in_TWO_SLOT_MODELS _) eqn:Htwo;
    [destruct (Z.leb_spec (j + 1) total_slots)|];
    rewrite ?get_set_ne; try done.
  intros Hk. destruct (Hnext Hk); [done | lia].
Qed.

Lemma foldl_expand_untouched_gen k e l :
  (∀ j d, (j, d) ∈ l →
     j ≠ k
     ∧ (j + 1 = k →
        in_TWO_SLOT_MODELS (Details.model d) = false ∨ total_slots < k)) →
  OrderedDict.get k (foldl (expand_item total_slots) e l) = OrderedDict.get k e.
Proof.
  revert e. induction l as [|[j d] l IH]; intros e Hl; [done|]. cbn [foldl].
  rewrite IH by (intros j' d' H'; apply (Hl j' d'); by apply elem_of_cons; right).
  destruct (Hl j d) as [? ?]; [apply elem_of_cons; by left|].
  by apply expand_item_untouched_gen.
Qed.

(** The entry of the direct map at [k] stays the entry of the expanded map
    when no two-slot item of slot [k - 1] can reach [k]. *)
Lemma expanded_keeps_direct k v (populated : odict Z Details.t) :
  NoDup (OrderedDict.keys populated) →
  OrderedDict.get k populated = Some v →
  (∀ d, OrderedDict.get (k - 1) populated = Some d →
        in_TWO_SLOT_MODELS (Details.model d) = false ∨ total_slots < k) →
  OrderedDict.get k (expanded_slots_details total_slots populated) = Some v.
Proof.
  intros Hnd Hk Hprev.
  apply get_Some_elem, list_elem_of_split in Hk as (l1 & l2 & Hpop).
  unfold expanded_slots_details. rewrite Hpop, foldl_app. cbn [foldl].
  rewrite foldl_expand_untouched_gen; [apply expand_item_direct|].
  intros j d Hin.
  assert (Hinpop : (j, d) ∈ populated).
  { rewrite Hpop. apply elem_of_app. right. apply elem_of_cons. by right. }
  split.
  - intros ->. rewrite Hpop in Hnd. unfold OrderedDict.keys in Hnd.
    rewrite fmap_app, fmap_cons in Hnd.
    apply NoDup_app in Hnd as (_ & _ & [Hnotin _]%NoDup_cons).
    apply Hnotin. apply list_elem_of_fmap. by exists (k, d).
  - intros Hj. apply Hprev. replace (k - 1) with j by lia.
    by apply elem_get.
Qed.

Lemma expanded_beyond_total_slots k (populated : odict Z Details.t) :
  NoDup (OrderedDict.keys populated) → total_slots < k →
  OrderedDict.get k (expanded_slots_details total_slots populated)
  = OrderedDict.get k populated.
Proof.
  intros Hnd Hk.
  destruct (OrderedDict.get k populated) as [v|] eqn:E.
  - apply expanded_keeps_direct; [done | done | by right].
  - unfold expanded_slots_details. rewrite foldl_expand_untouched_gen; [done|].
    intros j d Hin. split; [|by right].
    intros ->. apply elem_is_Some in Hin as [v Hv]. congruence.
Qed.

End expansion_beyond.

(** ** No exception leaves the loop over the blades *)

Lemma Raising_record_blade (details_of : ComputeBlade.t → Details.t)
    (d : odict Z Details.t) (blade : ComputeBlade.t) :
  Raising.record_blade details_of d blade
  = inr (record_blade details_of d blade).
Proof.
  unfold Raising.record_blade, record_blade, parsed_slot_id, Raising.int.
  destruct (ComputeBlade.slot_id blade) as [[|z|s]|]; try done.
  rewrite decide_False by done. by destruct (int_of_str s).
Qed.

Lemma Raising_blade_loop (details_of : ComputeBlade.t → Details.t)
    (d : odict Z Details.t) (blades : list ComputeBlade.t) :
  Raising.blade_loop details_of d blades
  = inr (foldl (record_blade details_of) d blades).
Proof.
  revert d. induction blades as [|b blades IH]; intros d; [done|].
  cbn [Raising.blade_loop foldl]. by rewrite Raising_record_blade, IH.
Qed.

(** * The claims *)

(** C5.  Normalisation of the chassis operational state: a string that is not
    empty once trimmed yields its trimmed value; an empty or all-whitespace
    string yields "operable"; [None] yields
    "NotReported (ChassisState_is_None)"; a record without the field yields
    "UnknownChassisState".  In particular "  Operable  " yields "Operable". *)
Theorem oper_state_normalization :
  (∀ c s, EquipmentChassis.oper_state c = Some (PStr s) → strip s ≠ "" →
          reported_chassis_oper_state c = strip s)
  ∧ (∀ c s, EquipmentChassis.oper_state c = Some (PStr s) → strip s = "" →
            reported_chassis_oper_state c = "operable")
  ∧ (∀ c, EquipmentChassis.oper_state c = Some PNone →
          reported_chassis_oper_state c = "NotReported (ChassisState_is_None)")
  ∧ (∀ c, EquipmentChassis.oper_state c = None →
          reported_chassis_oper_state c = "UnknownChassisState")
  ∧ strip "  Operable  " = "Operable".
Proof.
  unfold reported_chassis_oper_state. split_and!; try done.
  - intros c s -> Hs. destruct (String.eqb_spec (strip s) ""); done.
  - intros c s -> Hs. by rewrite Hs.
  - by intros c ->.
  - by intros c ->.
Qed.

Lemma oper_state_normalization_witness :
  reported_chassis_oper_state (Sample.chassis (Some (PStr "  Operable  ")))
    = "Operable"
  ∧ reported_chassis_oper_state (Sample.chassis (Some (PStr ""))) = "operable"
  ∧ reported_chassis_oper_state (Sample.chassis (Some (PStr "  ")))
    = "operable"
  ∧ reported_chassis_oper_state (Sample.chassis (Some PNone))
    = "NotReported (ChassisState_is_None)"
  ∧ reported_chassis_oper_state (Sample.chassis None) = "UnknownChassisState".
Proof.
  destruct oper_state_normalization as (Hstr & Hblank & Hnone & Hmissing & _).
  split_and!.
  - apply (Hstr _ "  Operable  "); [reflexivity | vm_compute; discriminate].
  - apply (Hblank _ ""); reflexivity.
  - apply (Hblank _ "  "); reflexivity.
  - apply Hnone; reflexivity.
  - apply Hmissing; reflexivity.
Defined.

(** C2.  Both reports write, after the header, the rows of the chassis one
    chassis after the other; the rows of a chassis are exactly [total_slots]
    slot rows, for the slots 1 to [total_slots] in ascending order, whatever
    the blades reported; [total_slots] is the entry of the capacity table for
    the chassis model, and 8 when the table has none. *)
Theorem rows_per_chassis (api : Api)
    (results : list EquipmentChassis.t) (c : EquipmentChassis.t) :
  BladesReport.run api results
    = writeheader :: (results ≫= BladesReport.chassis_rows api)
  ∧ ChassisReport.csvfile (ChassisReport.run api results)
    = writeheader :: (results ≫= ChassisReport.chassis_rows api)
  ∧ (∃ rs, BladesReport.chassis_rows api c = writerow <$> rs
           ∧ Slot <$> rs = ascending_slots (total_slots c)
           ∧ Z.of_nat (length rs) = total_slots c)
  ∧ (∃ rs, ChassisReport.chassis_rows api c = writerow <$> rs
           ∧ Slot <$> rs = ascending_slots (total_slots c)
           ∧ Z.of_nat (length rs) = total_slots c)
  ∧ (∀ s n, chassis_model_str c = PStr s →
            CHASSIS_SLOT_COUNTS !! s = Some n → total_slots c = n)
  ∧ ((∀ s, chassis_model_str c = PStr s → CHASSIS_SLOT_COUNTS !! s = None) →
     total_slots c = 8).
Proof.
  assert (Hrows : ∀ slots, ∃ rs, slot_rows c slots = writerow <$> rs
            ∧ Slot <$> rs = ascending_slots (total_slots c)
            ∧ Z.of_nat (length rs) = total_slots c).
  { intros slots. eexists. split; [apply slot_rows_eq|].
    split; [apply slot_rows_Slot|].
    rewrite py_range_from_1, !length_fmap, length_seq.
    pose proof (total_slots_nonneg c). lia. }
  split_and!.
  - apply BladesReport_foldl.
  - apply ChassisReport_foldl_csvfile.
  - apply Hrows.
  - apply Hrows.
  - intros s n Hs Hn. unfold total_slots. by rewrite Hs, Hn.
  - intros Hnone. unfold total_slots.
    destruct (chassis_model_str c) as [| |s] eqn:E; try done.
    by rewrite Hnone.
Qed.

Lemma rows_per_chassis_witness :
  total_slots Sample.operable = 8
  ∧ total_slots (EquipmentChassis.Build None None (Some (PStr "UCSX-210C")) None None)
    = 8
  ∧ Z.of_nat (length (ChassisReport.chassis_rows
        (Sample.fleet [Sample.blade (PInt 12) "UCSX-410C-M7" "SN1";
                       Sample.blade (PInt 2) "UCSB-B200-M5" "SN2";
                       Sample.blade (PInt 2) "UCSB-B200-M5" "SN3"])
        Sample.operable)) = 8.
Proof.
  split_and!.
  - destruct (rows_per_chassis (Sample.fleet []) [] Sample.operable)
      as (_ & _ & _ & _ & Htable & _).
    apply (Htable "UCSB-5108-AC2"); reflexivity.
  - destruct (rows_per_chassis (Sample.fleet []) []
        (EquipmentChassis.Build None None (Some (PStr "UCSX-210C")) None None))
      as (_ & _ & _ & _ & _ & Hdefault).
    apply Hdefault. intros s [= <-]. reflexivity.
  - destruct (rows_per_chassis
        (Sample.fleet [Sample.blade (PInt 12) "UCSX-410C-M7" "SN1";
                       Sample.blade (PInt 2) "UCSB-B200-M5" "SN2";
                       Sample.blade (PInt 2) "UCSB-B200-M5" "SN3"])
        [] Sample.operable) as (_ & _ & _ & (rs & -> & _ & Hlen) & _).
    rewrite length_fmap. exact Hlen.
Defined.

(** C3.  A chassis of model "UCSB-5108-AC2" in state "operable" with one blade,
    at slot 3, of the two-slot model "UCSX-410C-M7" and serial "SN1": the
    summary report shows the blade at slots 3 and 4 and the slots 1, 2, 5, 6,
    7, 8 empty; the other report shows it at slot 3 only. *)
Theorem two_slot_blade_scenario (name moid serial blade_moid : option pyval) :
  let c := EquipmentChassis.Build name moid (Some (PStr "UCSB-5108-AC2"))
             serial (Some (PStr "operable")) in
  let b := ComputeBlade.Build (Some (PInt 3)) blade_moid
             (Some (PStr "UCSX-410C-M7")) (Some (PStr "SN1")) in
  let api := Sample.api (Response (Some (Some [c]))) [b] in
  let occupied (i : Z) :=
    Some (PInt i, PStr "UCSX-410C-M7", PStr "SN1", PStr "operable") in
  slot_cells <$> ChassisReport.chassis_rows api c
    = [empty_slot 1; empty_slot 2; occupied 3; occupied 4;
       empty_slot 5; empty_slot 6; empty_slot 7; empty_slot 8]
  ∧ slot_cells <$> BladesReport.chassis_rows api c
    = [empty_slot 1; empty_slot 2; occupied 3; empty_slot 4;
       empty_slot 5; empty_slot 6; empty_slot 7; empty_slot 8]
  ∧ BladesReport.main api = writeheader :: BladesReport.chassis_rows api c
  ∧ take 9 (ChassisReport.main api)
    = writeheader :: ChassisReport.chassis_rows api c.
Proof. intros c b api occupied. split_and!; vm_compute; reflexivity. Qed.

(** C10.  When the chassis list is absent or empty, both reports stop after
    the header line: the summary report writes no summary block. *)
Theorem no_chassis_header_only (api : Api) :
  get_equipment_chassis_list api
    ∈ [NoResponse; Response None; Response (Some None);
       Response (Some (Some []))] →
  BladesReport.main api = [writeheader]
  ∧ ChassisReport.main api = [writeheader].
Proof.
  unfold BladesReport.main, ChassisReport.main.
  rewrite !elem_of_cons, elem_of_nil.
  intros [->|[->|[->|[->|[]]]]]; done.
Qed.

Lemma no_chassis_header_only_witness :
  BladesReport.main
    (Sample.api (Response (Some (Some []))) [Sample.blade (PInt 1) "M" "S"])
    = [writeheader]
  ∧ ChassisReport.main
      (Sample.api (Response (Some (Some []))) [Sample.blade (PInt 1) "M" "S"])
    = [writeheader].
Proof.
  apply no_chassis_header_only. simpl.
  do 3 apply list_elem_of_further. apply list_elem_of_here.
Defined.

(** C8.  A blade whose slot index is missing or cannot be parsed as an integer
    is left out of the reconciliation, and no exception leaves the loop over
    the blades: [int] raises [ValueError] on a string that does not parse,
    which the handler absorbs, and is not reached when the slot index is
    [None] or absent; the turn of such a blade returns the map unchanged.
    What both reports write, rows and summary block alike, depends on the
    blade lists only through the blades of well-formed slot index. *)
Theorem malformed_blades_ignored (api api' : Api) :
  (∀ details_of d blades,
     Raising.blade_loop details_of d blades
     = inr (foldl (record_blade details_of) d blades))
  ∧ (∀ b, slot_index_malformed b = true
          ↔ ComputeBlade.slot_id b = None
            ∨ ComputeBlade.slot_id b = Some PNone
            ∨ ∃ s, ComputeBlade.slot_id b = Some (PStr s)
                   ∧ Raising.int (PStr s) = inl Raising.ValueError)
  ∧ (∀ details_of d b, slot_index_malformed b = true →
       Raising.record_blade details_of d b = inr d)
  ∧ (same_well_formed_blades api api' →
     BladesReport.main api = BladesReport.main api'
     ∧ ChassisReport.main api = ChassisReport.main api').
Proof.
  split_and!.
  - apply Raising_blade_loop.
  - intros b. unfold slot_index_malformed, Raising.int.
    destruct (ComputeBlade.slot_id b) as [[|z|s]|]; simpl.
    + split; [auto | done].
    + split; [done | intros [?|[?|(s & ? & ?)]]; done].
    + rewrite bool_decide_eq_true. split.
      * intros Hs. right; right. exists s. by rewrite Hs.
      * intros [?|[?|(s' & [= <-] & Hs)]]; [done..|].
        by destruct (int_of_str s).
    + split; [auto | done].
  - intros details_of d b Hmal.
    rewrite Raising_record_blade. f_equal.
    by apply record_blade_skip, parsed_slot_id_malformed.
  - intros [Hchassis Hblades].
    assert (Hfold : ∀ (S : Type) (f g : S → EquipmentChassis.t → S) l a,
               (∀ a c, f a c = g a c) → foldl f a l = foldl g a l).
    { intros S f g l. induction l as [|c l IH]; intros a Hfg; [done|].
      simpl. rewrite Hfg. by apply IH. }
    assert (Hpop : ∀ details_of moid,
               populate details_of (get_compute_blade_list api moid)
               = populate details_of (get_compute_blade_list api' moid)).
    { intros details_of moid. by rewrite !populate_well_formed, Hblades. }
    split.
    + unfold BladesReport.main, BladesReport.run. rewrite Hchassis.
      destruct (usable_results _) as [results|]; [|done].
      apply Hfold. intros out c.
      unfold BladesReport.process_chassis, BladesReport.chassis_rows,
        BladesReport.populated_slots_details.
      by rewrite Hpop.
    + unfold ChassisReport.main, ChassisReport.run. rewrite Hchassis.
      destruct (usable_results _) as [results|]; [|done].
      f_equal; [f_equal|do 2 f_equal]; apply Hfold; intros st c;
        unfold ChassisReport.process_chassis, ChassisReport.chassis_rows,
          ChassisReport.populated_slots_details;
        by rewrite Hpop.
Qed.

Lemma malformed_blades_ignored_witness :
  BladesReport.main
    (Sample.fleet [Sample.blade (PInt 1) "UCSB-B200-M5" "SN1";
                   Sample.blade (PStr "three") "UCSX-410C-M7" "SN2";
                   Sample.blade PNone "UCSX-410C-M7" "SN4";
                   Sample.blade (PStr " 2 ") "UCSB-B200-M5" "SN3"])
  = BladesReport.main
      (Sample.fleet [Sample.blade (PInt 1) "UCSB-B200-M5" "SN1";
                     Sample.blade (PStr " 2 ") "UCSB-B200-M5" "SN3"])
  ∧ ChassisReport.main
      (Sample.fleet [Sample.blade (PInt 1) "UCSB-B200-M5" "SN1";
                     Sample.blade (PStr "three") "UCSX-410C-M7" "SN2";
                     Sample.blade PNone "UCSX-410C-M7" "SN4";
                     Sample.blade (PStr " 2 ") "UCSB-B200-M5" "SN3"])
    = ChassisReport.main
        (Sample.fleet [Sample.blade (PInt 1) "UCSB-B200-M5" "SN1";
                       Sample.blade (PStr " 2 ") "UCSB-B200-M5" "SN3"])
  ∧ Raising.record_blade ChassisReport.details_of
      [(1, Details.Build (PStr "UCSB-B200-M5") (PStr "SN1"))]
      (Sample.blade (PStr "three") "UCSX-410C-M7" "SN2")
    = inr [(1, Details.Build (PStr "UCSB-B200-M5") (PStr "SN1"))].
Proof.
  destruct (malformed_blades_ignored
    (Sample.fleet [Sample.blade (PInt 1) "UCSB-B200-M5" "SN1";
                   Sample.blade (PStr "three") "UCSX-410C-M7" "SN2";
                   Sample.blade PNone "UCSX-410C-M7" "SN4";
                   Sample.blade (PStr " 2 ") "UCSB-B200-M5" "SN3"])
    (Sample.fleet [Sample.blade (PInt 1) "UCSB-B200-M5" "SN1";
                   Sample.blade (PStr " 2 ") "UCSB-B200-M5" "SN3"]))
    as (_ & _ & Hturn & Hsame).
  destruct Hsame as [Hblades Hchassis].
  - split; [reflexivity | intros moid; reflexivity].
  - split_and!; [exact Hblades | exact Hchassis |].
    apply Hturn. reflexivity.
Defined.

(** C7.  When several blades of a chassis report one slot index, the blade
    that comes last in the blade list gives the entry of the direct-assignment
    map of both reports its model and serial (as each report reads them), the
    keys of the map being distinct; and for a slot index within 1 to
    [total_slots] each report writes exactly one row for the slot: in
    [blades.py] it shows that blade; in [chassis.py] it is an occupied row,
    and it shows that blade unless the slot before holds a two-slot blade. *)
Theorem duplicate_slot_last_wins (api : Api) (c : EquipmentChassis.t)
    (l1 l2 : list ComputeBlade.t) (b : ComputeBlade.t) (k : Z) :
  let resp := get_compute_blade_list api (chassis_moid c) in
  blades_of resp = l1 ++ b :: l2 →
  parsed_slot_id b = Some k →
  (∀ b', b' ∈ l2 → parsed_slot_id b' ≠ Some k) →
  1 ≤ k ≤ total_slots c →
  OrderedDict.get k (BladesReport.populated_slots_details resp)
    = Some (BladesReport.details_of b)
  ∧ OrderedDict.get k (ChassisReport.populated_slots_details resp)
    = Some (ChassisReport.details_of b)
  ∧ NoDup (OrderedDict.keys (BladesReport.populated_slots_details resp))
  ∧ NoDup (OrderedDict.keys (ChassisReport.populated_slots_details resp))
  ∧ (∃ r, rows_for_slot k (BladesReport.chassis_rows api c) = [writerow r]
          ∧ row_reports c k (Some (BladesReport.details_of b)) r)
  ∧ length (rows_for_slot k (ChassisReport.chassis_rows api c)) = 1%nat
  ∧ OrderedDict.get k (BladesReport.populated_slots_details resp)
    = Some {| Details.model :=
                attr_or (ComputeBlade.model b) "UnknownBladeModel";
              Details.serial :=
                attr_or (ComputeBlade.serial b) "UnknownBladeSerial" |}
  ∧ OrderedDict.get k (ChassisReport.populated_slots_details resp)
    = Some {| Details.model :=
                getattr (ComputeBlade.model b) "UnknownBladeModel";
              Details.serial :=
                getattr (ComputeBlade.serial b) "UnknownBladeSerial" |}
  ∧ (∃ r, rows_for_slot k (BladesReport.chassis_rows api c) = [writerow r]
          ∧ Slot r = PInt k
          ∧ BladeModel r = attr_or (ComputeBlade.model b) "UnknownBladeModel"
          ∧ BladeSerial r
            = attr_or (ComputeBlade.serial b) "UnknownBladeSerial"
          ∧ OperState r = PStr (reported_chassis_oper_state c))
  ∧ (∃ r, rows_for_slot k (ChassisReport.chassis_rows api c) = [writerow r]
          ∧ Slot r = PInt k
          ∧ OperState r = PStr (reported_chassis_oper_state c)
          ∧ ((∀ d, OrderedDict.get (k - 1)
                     (ChassisReport.populated_slots_details resp) = Some d →
                   in_TWO_SLOT_MODELS (Details.model d) = false) →
             BladeModel r = getattr (ComputeBlade.model b) "UnknownBladeModel"
             ∧ BladeSerial r
               = getattr (ComputeBlade.serial b) "UnknownBladeSerial")).
Proof.
  intros resp Hresp Hb Hl2 Hk.
  assert (Hget : ∀ details_of,
    OrderedDict.get k (populate details_of resp) = Some (details_of b)).
  { intros details_of. rewrite populate_blades_of, Hresp.
    by apply foldl_record_blade_last. }
  assert (Hblades_row :
    slot_row c (BladesReport.populated_slots_details resp) k
    = {| Chassis := chassis_name c; ChassisModel := chassis_model_str c;
         ChassisSerial := chassis_serial_str c; Slot := PInt k;
         BladeModel := attr_or (ComputeBlade.model b) "UnknownBladeModel";
         BladeSerial := attr_or (ComputeBlade.serial b) "UnknownBladeSerial";
         OperState := PStr (reported_chassis_oper_state c) |}).
  { unfold slot_row, BladesReport.populated_slots_details. by rewrite Hget. }
  split_and!.
  - apply Hget.
  - apply Hget.
  - apply populate_NoDup.
  - apply populate_NoDup.
  - eexists. split.
    + unfold BladesReport.chassis_rows. by apply rows_for_slot_slot_rows.
    + fold resp. rewrite Hblades_row. by split.
  - unfold ChassisReport.chassis_rows.
    by rewrite rows_for_slot_slot_rows.
  - apply Hget.
  - apply Hget.
  - eexists. split.
    + unfold BladesReport.chassis_rows. by apply rows_for_slot_slot_rows.
    + fold resp. by rewrite Hblades_row.
  - eexists. split.
    + unfold ChassisReport.chassis_rows. by apply rows_for_slot_slot_rows.
    + fold resp. split; [apply Slot_slot_row|].
      set (populated := ChassisReport.populated_slots_details resp).
      assert (Hdirect : OrderedDict.get k populated
                        = Some (ChassisReport.details_of b)) by apply Hget.
      split.
      * unfold slot_row.
        destruct (foldl_expand_direct (total_slots c) [] populated k
                    (ChassisReport.details_of b)) as [v Hv];
          [by apply get_Some_elem|].
        fold (ChassisReport.expanded_slots_details (total_slots c) populated)
          in Hv.
        by rewrite Hv.
      * intros Hprev. unfold slot_row.
        rewrite (expanded_keeps_direct (total_slots c) k
                   (ChassisReport.details_of b) populated);
          [done | apply populate_NoDup | done |].
        intros d Hd. left. by apply Hprev.
Qed.

Lemma duplicate_slot_last_wins_witness :
  let blades :=
    [Sample.blade (PInt 5) "UCSB-B200-M5" "SN-early";
     Sample.blade (PStr "5") "UCSB-B200-M6" "SN-late";
     Sample.blade (PInt 6) "UCSB-B200-M5" "SN-6"] in
  OrderedDict.get 5
    (BladesReport.populated_slots_details (Response (Some (Some blades))))
  = Some (Details.Build (PStr "UCSB-B200-M6") (PStr "SN-late"))
  ∧ OrderedDict.get 5
      (ChassisReport.populated_slots_details (Response (Some (Some blades))))
    = Some (Details.Build (PStr "UCSB-B200-M6") (PStr "SN-late"))
  ∧ ∃ r, rows_for_slot 5
           (ChassisReport.chassis_rows (Sample.fleet blades) Sample.operable)
         = [writerow r]
         ∧ BladeModel r = PStr "UCSB-B200-M6"
         ∧ BladeSerial r = PStr "SN-late".
Proof.
  intros blades.
  destruct (duplicate_slot_last_wins
              (Sample.fleet blades) Sample.operable
              [Sample.blade (PInt 5) "UCSB-B200-M5" "SN-early"]
              [Sample.blade (PInt 6) "UCSB-B200-M5" "SN-6"]
              (Sample.blade (PStr "5") "UCSB-B200-M6" "SN-late") 5)
    as (_ & _ & _ & _ & _ & _ & Hb & Hc & _ & (r & Hr & _ & _ & Hshown)).
  - reflexivity.
  - reflexivity.
  - intros b' ->%list_elem_of_singleton. vm_compute. discriminate.
  - vm_compute. split; discriminate.
  - split_and!; [exact Hb | exact Hc |].
    exists r. split; [exact Hr|]. apply Hshown.
    intros d Hd. vm_compute in Hd. discriminate Hd.
Defined.

(** C6.  The expanded map of [chassis.py] holds a slot index exactly when the
    index is directly assigned, or follows the slot of a two-slot blade and
    does not exceed [total_slots]; each of its entries is the entry of the
    direct map at that index, or that of a two-slot blade at the index before
    when the index does not exceed [total_slots]; and beyond [total_slots] the
    expanded map is the direct map, for any direct map of distinct keys and so
    for the one built from a blade list: no index greater than [total_slots]
    is claimed, or overwritten, by expansion, in particular not by a two-slot
    blade in the last slot. *)
Theorem expansion_within_total_slots
    (total_slots : Z) (populated : odict Z Details.t) (k : Z) :
  (OrderedDict.mem k
     (ChassisReport.expanded_slots_details total_slots populated) = true
   ↔ OrderedDict.mem k populated = true
     ∨ (k ≤ total_slots
        ∧ ∃ d, (k - 1, d) ∈ populated
               ∧ in_TWO_SLOT_MODELS (Details.model d) = true))
  ∧ (total_slots < k →
     OrderedDict.mem k populated = false →
     OrderedDict.mem k
       (ChassisReport.expanded_slots_details total_slots populated) = false)
  ∧ (∀ v, OrderedDict.get k
            (ChassisReport.expanded_slots_details total_slots populated)
          = Some v →
          (k, v) ∈ populated
          ∨ ((k - 1, v) ∈ populated
             ∧ in_TWO_SLOT_MODELS (Details.model v) = true
             ∧ k ≤ total_slots))
  ∧ (NoDup (OrderedDict.keys populated) → total_slots < k →
     OrderedDict.get k
       (ChassisReport.expanded_slots_details total_slots populated)
     = OrderedDict.get k populated)
  ∧ (∀ resp, total_slots < k →
     OrderedDict.get k
       (ChassisReport.expanded_slots_details total_slots
          (ChassisReport.populated_slots_details resp))
     = OrderedDict.get k (ChassisReport.populated_slots_details resp)).
Proof.
  assert (Hiff :
    OrderedDict.mem k
      (ChassisReport.expanded_slots_details total_slots populated) = true
    ↔ OrderedDict.mem k populated = true
      ∨ (k ≤ total_slots
         ∧ ∃ d, (k - 1, d) ∈ populated
                ∧ in_TWO_SLOT_MODELS (Details.model d) = true)).
  { unfold OrderedDict.mem, ChassisReport.expanded_slots_details.
    rewrite !bool_decide_eq_true. split.
    - intros [v [Hv|[Hv|(Hv & Hd & Hk)]]%foldl_expand_origin]; [done| |].
      + left. by eapply elem_is_Some.
      + right. eauto.
    - intros [[v Hv%get_Some_elem]|(Hk & d & Hd & Htwo)].
      + by eapply foldl_expand_direct.
      + replace k with (k - 1 + 1) at 1 by lia.
        eapply foldl_expand_next; [done..|lia]. }
  split_and!; [exact Hiff | | | |].
  - intros Hk Hpop. apply not_true_is_false. intros [Hm|[? _]]%Hiff.
    + congruence.
    + lia.
  - intros v Hv. unfold ChassisReport.expanded_slots_details in Hv.
    by apply foldl_expand_origin in Hv as [Hv|Hv].
  - intros Hnd Hk. by apply expanded_beyond_total_slots.
  - intros resp Hk.
    apply expanded_beyond_total_slots; [apply populate_NoDup | done].
Qed.

Lemma expansion_within_total_slots_witness :
  OrderedDict.mem 9
    (ChassisReport.expanded_slots_details 8
       [(7, Details.Build (PStr "UCSB-B480-M5") (PStr "SN7"));
        (8, Details.Build (PStr "UCSX-410C-M7") (PStr "SN8"))]) = false
  ∧ OrderedDict.mem 8
      (ChassisReport.expanded_slots_details 8
         [(7, Details.Build (PStr "UCSB-B480-M5") (PStr "SN7"))]) = true
  ∧ OrderedDict.get 9
      (ChassisReport.expanded_slots_details 8
         [(9, Details.Build (PStr "UCSB-B200-M5") (PStr "SN9"));
          (8, Details.Build (PStr "UCSX-410C-M7") (PStr "SN8"))])
    = Some (Details.Build (PStr "UCSB-B200-M5") (PStr "SN9")).
Proof.
  split_and!.
  - apply expansion_within_total_slots; [lia | reflexivity].
  - apply expansion_within_total_slots. right. split; [lia|].
    exists (Details.Build (PStr "UCSB-B480-M5") (PStr "SN7")).
    split; [apply list_elem_of_here | reflexivity].
  - destruct (expansion_within_total_slots 8
        [(9, Details.Build (PStr "UCSB-B200-M5") (PStr "SN9"));
         (8, Details.Build (PStr "UCSX-410C-M7") (PStr "SN8"))] 9)
      as (_ & _ & _ & Hbeyond & _).
    rewrite Hbeyond; [reflexivity | | lia].
    apply NoDup_cons. split.
    + intros [[=]|[]%elem_of_nil]%elem_of_cons.
    + apply NoDup_singleton.
Defined.

(** C4.  For every slot index from 1 to [total_slots], the row at that
    position carries the index.  When the slot map of the report (the direct
    map in [blades.py], the expanded map in [chassis.py]) holds the index, the
    row shows the normalised state of the chassis and the model and serial of
    the claiming blade, as the report reads them from the blade: the last
    blade of the list with that slot index or, in [chassis.py], the last
    blade with the slot index before, of a two-slot model.  Otherwise no
    blade has that slot index, and the row shows an empty model and serial
    and the state "Empty". *)
Theorem slot_row_contents (api : Api) (c : EquipmentChassis.t) (i : Z) :
  1 ≤ i ≤ total_slots c →
  let resp := get_compute_blade_list api (chassis_moid c) in
  let direct := BladesReport.populated_slots_details resp in
  let expanded :=
    ChassisReport.expanded_slots_details (total_slots c)
      (ChassisReport.populated_slots_details resp) in
  (∃ r, BladesReport.chassis_rows api c !! Z.to_nat (i - 1) = Some (writerow r)
        ∧ row_reports c i (OrderedDict.get i direct) r
        ∧ match OrderedDict.get i direct with
          | Some _ =>
              ∃ l1 b l2,
                blades_of resp = l1 ++ b :: l2
                ∧ parsed_slot_id b = Some i
                ∧ (∀ b', b' ∈ l2 → parsed_slot_id b' ≠ Some i)
                ∧ BladeModel r
                  = attr_or (ComputeBlade.model b) "UnknownBladeModel"
                ∧ BladeSerial r
                  = attr_or (ComputeBlade.serial b) "UnknownBladeSerial"
                ∧ OperState r = PStr (reported_chassis_oper_state c)
          | None =>
              (∀ b, b ∈ blades_of resp → parsed_slot_id b ≠ Some i)
              ∧ BladeModel r = PStr "" ∧ BladeSerial r = PStr ""
              ∧ OperState r = PStr "Empty"
          end)
  ∧ (∃ r, ChassisReport.chassis_rows api c !! Z.to_nat (i - 1)
            = Some (writerow r)
          ∧ row_reports c i (OrderedDict.get i expanded) r
          ∧ match OrderedDict.get i expanded with
            | Some _ =>
                ∃ l1 b l2,
                  blades_of resp = l1 ++ b :: l2
                  ∧ (∀ b', b' ∈ l2 → parsed_slot_id b' ≠ parsed_slot_id b)
                  ∧ (parsed_slot_id b = Some i
                     ∨ (parsed_slot_id b = Some (i - 1)
                        ∧ in_TWO_SLOT_MODELS
                            (getattr (ComputeBlade.model b) "UnknownBladeModel")
                          = true))
                  ∧ BladeModel r
                    = getattr (ComputeBlade.model b) "UnknownBladeModel"
                  ∧ BladeSerial r
                    = getattr (ComputeBlade.serial b) "UnknownBladeSerial"
                  ∧ OperState r = PStr (reported_chassis_oper_state c)
            | None =>
                (∀ b, b ∈ blades_of resp → parsed_slot_id b ≠ Some i)
                ∧ BladeModel r = PStr "" ∧ BladeSerial r = PStr ""
                ∧ OperState r = PStr "Empty"
            end)
  ∧ (∀ d, OrderedDict.get i direct = Some d →
          ∃ b, b ∈ blades_of resp ∧ BladesReport.details_of b = d
               ∧ parsed_slot_id b = Some i)
  ∧ (∀ d, OrderedDict.get i expanded = Some d →
          ∃ b, b ∈ blades_of resp ∧ ChassisReport.details_of b = d
               ∧ (parsed_slot_id b = Some i
                  ∨ (parsed_slot_id b = Some (i - 1)
                     ∧ in_TWO_SLOT_MODELS (Details.model d) = true))).
Proof.
  intros Hi resp direct expanded.
  assert (Hrow : ∀ slots,
    row_reports c i (OrderedDict.get i slots) (slot_row c slots i)).
  { intros slots. unfold row_reports, slot_row.
    by destruct (OrderedDict.get i slots). }
  assert (Hnd : NoDup (OrderedDict.keys
                         (ChassisReport.populated_slots_details resp)))
    by apply populate_NoDup.
  split_and!.
  - eexists. split; [by apply slot_rows_lookup|]. split; [apply Hrow|].
    fold resp direct. unfold slot_row.
    destruct (OrderedDict.get i direct) as [d|] eqn:E; simpl.
    + apply populate_entry_last in E as (l1 & b & l2 & Hl & Hb & Hl2 & <-).
      exists l1, b, l2. by split_and!.
    + split_and!; try done. by apply (populate_no_entry _ _ _ E).
  - eexists. split; [by apply slot_rows_lookup|]. split; [apply Hrow|].
    fold resp expanded. unfold slot_row.
    destruct (OrderedDict.get i expanded) as [d|] eqn:E; simpl.
    + unfold expanded, ChassisReport.expanded_slots_details in E.
      apply foldl_expand_origin in E as [E|[E|(E & Htwo & _)]]; [done| |].
      * apply elem_get, populate_entry_last in E
          as (l1 & b & l2 & Hl & Hb & Hl2 & <-); [|done].
        exists l1, b, l2. split_and!; try done; [|by left].
        intros b' Hb'. rewrite Hb. by apply Hl2.
      * apply elem_get, populate_entry_last in E
          as (l1 & b & l2 & Hl & Hb & Hl2 & <-); [|done].
        exists l1, b, l2. split_and!; try done; [|by right].
        intros b' Hb'. rewrite Hb. by apply Hl2.
    + split_and!; try done.
      apply (populate_no_entry ChassisReport.details_of).
      destruct (OrderedDict.get i (populate _ resp)) as [d|] eqn:Ed; [|done].
      destruct (foldl_expand_direct (total_slots c) []
                  (ChassisReport.populated_slots_details resp) i d)
        as [v Hv]; [by apply get_Some_elem|].
      unfold expanded, ChassisReport.expanded_slots_details in E. congruence.
  - intros d (b & Hb & Hk & Hd)%populate_origin. eauto.
  - intros d Hd. unfold expanded, ChassisReport.expanded_slots_details in Hd.
    apply foldl_expand_origin in Hd as [Hd|[Hd|(Hd & Htwo & _)]]; [done| |].
    + apply elem_get, populate_origin in Hd as (b & Hb & Hk & Hv);
        [eauto | apply populate_NoDup].
    + apply elem_get, populate_origin in Hd as (b & Hb & Hk & Hv);
        [eauto 10 | apply populate_NoDup].
Qed.

Lemma slot_row_contents_witness :
  let blades :=
    [Sample.blade (PInt 3) "UCSX-410C-M7" "SN1";
     ComputeBlade.Build (Some (PStr "6")) None (Some (PStr "")) None] in
  (∃ r, ChassisReport.chassis_rows (Sample.fleet blades) Sample.operable
          !! 3%nat = Some (writerow r)
        ∧ Slot r = PInt 4 ∧ BladeModel r = PStr "UCSX-410C-M7"
        ∧ BladeSerial r = PStr "SN1" ∧ OperState r = PStr "operable")
  ∧ (∃ r, BladesReport.chassis_rows (Sample.fleet blades) Sample.operable
            !! 5%nat = Some (writerow r)
          ∧ Slot r = PInt 6 ∧ BladeModel r = PStr "UnknownBladeModel"
          ∧ BladeSerial r = PStr "UnknownBladeSerial"
          ∧ OperState r = PStr "operable")
  ∧ (∃ r, BladesReport.chassis_rows (Sample.fleet blades) Sample.operable
            !! 3%nat = Some (writerow r)
          ∧ Slot r = PInt 4 ∧ BladeModel r = PStr ""
          ∧ BladeSerial r = PStr "" ∧ OperState r = PStr "Empty").
Proof.
  intros blades. split_and!.
  - destruct (slot_row_contents (Sample.fleet blades) Sample.operable 4)
      as (_ & (r & Hr & Hrep & _) & _).
    + vm_compute. split; discriminate.
    + exists r. split; [exact Hr | exact Hrep].
  - destruct (slot_row_contents (Sample.fleet blades) Sample.operable 6)
      as ((r & Hr & Hrep & _) & _).
    + vm_compute. split; discriminate.
    + exists r. split; [exact Hr | exact Hrep].
  - destruct (slot_row_contents (Sample.fleet blades) Sample.operable 4)
      as ((r & Hr & Hrep & _) & _).
    + vm_compute. split; discriminate.
    + exists r. split; [exact Hr | exact Hrep].
Defined.

(** C9.  In [chassis.py], when the direct map holds a two-slot blade at slot
    [s] and another blade at slot [s + 1], the row of slot [s + 1] shows the
    one whose entry comes later in the direct map: the two-slot blade when its
    entry was inserted after that of slot [s + 1], which the expansion then
    overwrites, and the blade of slot [s + 1] otherwise. *)
Theorem expansion_overwrites_by_order (api : Api) (c : EquipmentChassis.t)
    (s : Z) (d1 d2 : Details.t) (l1 l2 : odict Z Details.t) :
  in_TWO_SLOT_MODELS (Details.model d1) = true →
  1 ≤ s + 1 ≤ total_slots c →
  (populated_of api c = l1 ++ (s, d1) :: l2 → (s + 1, d2) ∈ l1 →
   ∃ r, rows_for_slot (s + 1) (ChassisReport.chassis_rows api c) = [writerow r]
        ∧ row_reports c (s + 1) (Some d1) r)
  ∧ (populated_of api c = l1 ++ (s + 1, d2) :: l2 → (s, d1) ∈ l1 →
     ∃ r, rows_for_slot (s + 1) (ChassisReport.chassis_rows api c) = [writerow r]
          ∧ row_reports c (s + 1) (Some d2) r).
Proof.
  intros Htwo Hs.
  assert (Hnd : NoDup (OrderedDict.keys (populated_of api c)))
    by apply populate_NoDup.
  assert (Hrow : ∀ v,
    OrderedDict.get (s + 1)
      (ChassisReport.expanded_slots_details (total_slots c)
         (populated_of api c)) = Some v →
    ∃ r, rows_for_slot (s + 1) (ChassisReport.chassis_rows api c) = [writerow r]
         ∧ row_reports c (s + 1) (Some v) r).
  { intros v Hv. eexists. split.
    - unfold ChassisReport.chassis_rows. by apply rows_for_slot_slot_rows.
    - unfold row_reports, slot_row. fold (populated_of api c). by rewrite Hv. }
  assert (Hsplit : ∀ j d (l : odict Z Details.t),
    populated_of api c = l1 ++ (j, d) :: l →
    ∀ j' d', (j', d') ∈ l → j' ≠ j ∧ j' ∉ OrderedDict.keys l1).
  { intros j d l Hpop j' d' Hin. rewrite Hpop in Hnd.
    unfold OrderedDict.keys in *. rewrite fmap_app, fmap_cons in Hnd.
    apply NoDup_app in Hnd as (_ & Hdisj & [Hj _]%NoDup_cons).
    assert (Hj' : j' ∈ l.*1) by (apply list_elem_of_fmap; by exists (j', d')).
    split.
    - intros ->. done.
    - intros Hl1. apply (Hdisj j' Hl1). apply elem_of_cons; by right. }
  assert (Hkey : ∀ j d, (j, d) ∈ l1 → j ∈ OrderedDict.keys l1).
  { intros j d Hin. unfold OrderedDict.keys.
    apply list_elem_of_fmap. by exists (j, d). }
  split; intros Hpop Hin; apply Hrow; rewrite Hpop.
  - apply expanded_last_writer.
    + apply expand_item_next; [done | lia].
    + intros j' d' Hin'. destruct (Hsplit _ _ _ Hpop j' d' Hin') as [Hne Hl1].
      split; [|lia]. intros ->. apply Hl1. by eapply Hkey.
  - apply expanded_last_writer.
    + apply expand_item_direct.
    + intros j' d' Hin'. destruct (Hsplit _ _ _ Hpop j' d' Hin') as [Hne Hl1].
      split; [done|]. intros Hj'. apply Hl1.
      replace j' with s by lia. by eapply Hkey.
Qed.

Lemma expansion_overwrites_by_order_witness :
  (∃ r, rows_for_slot 4
          (ChassisReport.chassis_rows
             (Sample.fleet [Sample.blade (PInt 4) "UCSB-B200-M5" "SN-single";
                            Sample.blade (PInt 3) "UCSX-410C-M7" "SN-double"])
             Sample.operable) = [writerow r]
        ∧ row_reports Sample.operable 4
            (Some (Details.Build (PStr "UCSX-410C-M7") (PStr "SN-double"))) r)
  ∧ (∃ r, rows_for_slot 4
            (ChassisReport.chassis_rows
               (Sample.fleet [Sample.blade (PInt 3) "UCSX-410C-M7" "SN-double";
                              Sample.blade (PInt 4) "UCSB-B200-M5" "SN-single"])
               Sample.operable) = [writerow r]
          ∧ row_reports Sample.operable 4
              (Some (Details.Build (PStr "UCSB-B200-M5") (PStr "SN-single"))) r).
Proof.
  split.
  - apply (expansion_overwrites_by_order
             (Sample.fleet [Sample.blade (PInt 4) "UCSB-B200-M5" "SN-single";
                            Sample.blade (PInt 3) "UCSX-410C-M7" "SN-double"])
             Sample.operable 3
             (Details.Build (PStr "UCSX-410C-M7") (PStr "SN-double"))
             (Details.Build (PStr "UCSB-B200-M5") (PStr "SN-single"))
             [(4, Details.Build (PStr "UCSB-B200-M5") (PStr "SN-single"))] []).
    + reflexivity.
    + vm_compute. split; discriminate.
    + reflexivity.
    + apply list_elem_of_here.
  - apply (expansion_overwrites_by_order
             (Sample.fleet [Sample.blade (PInt 3) "UCSX-410C-M7" "SN-double";
                            Sample.blade (PInt 4) "UCSB-B200-M5" "SN-single"])
             Sample.operable 3
             (Details.Build (PStr "UCSX-410C-M7") (PStr "SN-double"))
             (Details.Build (PStr "UCSB-B200-M5") (PStr "SN-single"))
             [(3, Details.Build (PStr "UCSX-410C-M7") (PStr "SN-double"))] []).
    + reflexivity.
    + vm_compute. split; discriminate.
    + reflexivity.
    + apply list_elem_of_here.
Defined.

(** C1, as the specification states it, fails: a chassis of eight slots with
    one two-slot blade has counts that sum to 7 (one for the blade, six
    "Empty"). *)
Lemma summary_total_counterexample :
  let api := Sample.fleet [Sample.blade (PInt 3) "UCSX-410C-M7" "SN1"] in
  status_total
    (ChassisReport.model_summary_counts (ChassisReport.run api [Sample.operable]))
    (PStr "UCSB-5108-AC2") = 7
  ∧ fleet_slots [Sample.operable] (PStr "UCSB-5108-AC2") = 8.
Proof. split; reflexivity. Qed.

(** C1, amended.  In [chassis.py], for each chassis model, when no chassis of
    the model has more slots consumed by its recorded blades than
    [total_slots], the counts of all status labels ("Empty" included) sum to
    the sum of [total_slots] over the chassis of the model less the number of
    two-slot blades recorded in them: every recorded blade counts once, while
    a two-slot blade takes two slots from the "Empty" count. *)
Theorem summary_counts_total (api : Api)
    (results : list EquipmentChassis.t) (model : pyval) :
  (∀ c, c ∈ results → chassis_model_str c = model →
        ChassisReport.slots_occupied_by_blades (populated_of api c)
          ≤ total_slots c) →
  status_total
    (ChassisReport.model_summary_counts (ChassisReport.run api results)) model
  = fleet_slots results model - fleet_two_slot_blades api results model.
Proof.
  intros Hfit. unfold ChassisReport.run. rewrite status_total_foldl.
  unfold fleet_slots, fleet_two_slot_blades, status_total. simpl.
  induction results as [|c results IH]; [done|].
  assert (IH' := IH (λ c' Hc', Hfit c' (list_elem_of_further _ _ _ Hc'))).
  destruct (decide (chassis_model_str c = model)) as [Hc|Hc].
  - rewrite !filter_cons_True by done. csimpl.
    pose proof (Hfit c (list_elem_of_here _ _) Hc) as Hle.
    unfold counted at 1. rewrite slots_occupied_by_blades_eq in Hle |- *. lia.
  - rewrite !filter_cons_False by done. exact IH'.
Qed.

Lemma summary_counts_total_witness :
  status_total
    (ChassisReport.model_summary_counts
       (ChassisReport.run
          (Sample.fleet [Sample.blade (PInt 3) "UCSX-410C-M7" "SN1";
                         Sample.blade (PInt 6) "UCSB-B200-M5" "SN2"])
          [Sample.operable; Sample.chassis None]))
    (PStr "UCSB-5108-AC2")
  = 16 - 2.
Proof.
  apply (summary_counts_total
           (Sample.fleet [Sample.blade (PInt 3) "UCSX-410C-M7" "SN1";
                          Sample.blade (PInt 6) "UCSB-B200-M5" "SN2"])
           [Sample.operable; Sample.chassis None] (PStr "UCSB-5108-AC2")).
  intros c Hc _.
  apply elem_of_cons in Hc as [->|Hc];
    [|apply list_elem_of_singleton in Hc as ->]; vm_compute; discriminate.
Defined.

(** * Further properties of the reports *)

(** ** Trimming *)

Lemma lstrip_starts_trimmed (s : string) : starts_trimmed (lstrip s).
Proof.
  induction s as [|c r IH]; simpl; [done|].
  destruct (py_isspace c) eqn:E; [done | exact E].
Qed.

Lemma lstrip_trimmed (s : string) : starts_trimmed s → lstrip s = s.
Proof. destruct s as [|c r]; simpl; [done|]. by intros ->. Qed.

Lemma rstrip_starts_trimmed (s : string) :
  starts_trimmed s → starts_trimmed (rstrip s).
Proof.
  destruct s as [|c r]; simpl; [done|]. intros Hc.
  destruct (rstrip r); simpl; [by rewrite Hc | done].
Qed.

Lemma rstrip_rstrip (s : string) : rstrip (rstrip s) = rstrip s.
Proof.
  induction s as [|c r IH]; simpl; [done|].
  destruct (rstrip r) as [|c' r'] eqn:E.
  - destruct (py_isspace c) eqn:Hc; simpl; [done | by rewrite Hc].
  - cbn [rstrip]. fold rstrip. cbn [rstrip] in IH. fold rstrip in IH.
    by rewrite IH.
Qed.

Lemma strip_strip (s : string) : strip (strip s) = strip s.
Proof.
  unfold strip.
  rewrite (lstrip_trimmed (rstrip (lstrip s)))
    by apply rstrip_starts_trimmed, lstrip_starts_trimmed.
  apply rstrip_rstrip.
Qed.

(** X1.  The normalised state of a chassis is never the empty string and is
    already trimmed, whatever the record holds. *)
Theorem oper_state_never_empty (c : EquipmentChassis.t) :
  reported_chassis_oper_state c ≠ ""
  ∧ strip (reported_chassis_oper_state c) = reported_chassis_oper_state c.
Proof.
  unfold reported_chassis_oper_state.
  destruct (EquipmentChassis.oper_state c) as [[|z|s]|]; try done.
  destruct (String.eqb_spec (strip s) "") as [Hs|Hs]; simpl; [done|].
  split; [done | apply strip_strip].
Qed.

(** ** Sizes and cells *)

Lemma total_slots_eight (c : EquipmentChassis.t) : total_slots c = 8.
Proof.
  unfold total_slots, DEFAULT_SLOT_COUNT.
  destruct (chassis_model_str c) as [|z|s]; try done.
  destruct (CHASSIS_SLOT_COUNTS !! s) as [n|] eqn:E; [|done].
  by apply CHASSIS_SLOT_COUNTS_lookup in E as ->.
Qed.

Lemma length_slot_rows c slots : length (slot_rows c slots) = 8%nat.
Proof.
  unfold slot_rows. rewrite py_range_from_1, !length_fmap, length_seq.
  by rewrite total_slots_eight.
Qed.

Lemma length_bind_const {A B} (f : A → list B) (n : nat) (l : list A) :
  (∀ x, length (f x) = n) → length (l ≫= f) = (n * length l)%nat.
Proof.
  intros Hf. induction l as [|x l IH]; csimpl; [lia|].
  rewrite length_app, Hf, IH. lia.
Qed.

(** X2.  Every entry of the capacity table equals the default, so every
    chassis resolves to eight slots whatever its model; after [n] chassis the
    file of either report holds the header and 8 [n] slot rows. *)
Theorem eight_slots_per_chassis (api : Api)
    (results : list EquipmentChassis.t) (c : EquipmentChassis.t) :
  total_slots c = 8
  ∧ length (BladesReport.run api results) = S (8 * length results)
  ∧ length (ChassisReport.csvfile (ChassisReport.run api results))
    = S (8 * length results).
Proof.
  split_and!.
  - apply total_slots_eight.
  - unfold BladesReport.run.
    rewrite BladesReport_foldl, length_app, (length_bind_const _ 8%nat);
      [simpl; lia | intros c'; apply length_slot_rows].
  - unfold ChassisReport.run.
    rewrite ChassisReport_foldl_csvfile, length_app,
      (length_bind_const _ 8%nat);
      [simpl; lia | intros c'; apply length_slot_rows].
Qed.

Lemma truthy_attr_or (a : option pyval) (dflt : string) :
  dflt ≠ "" → truthy (attr_or a dflt) = true.
Proof.
  intros Hd. unfold attr_or.
  destruct a as [v|]; [destruct (truthy v) eqn:E; [done|]|];
    simpl; by destruct (String.eqb_spec dflt "").
Qed.

Lemma elem_of_slot_rows c slots (ln : line) :
  ln ∈ slot_rows c slots →
  ∃ i, 1 ≤ i ≤ total_slots c ∧ ln = writerow (slot_row c slots i).
Proof.
  unfold slot_rows. intros (i & -> & Hi)%list_elem_of_fmap.
  exists i. split; [by apply elem_of_py_range_from_1 | done].
Qed.

(** X3.  Every slot row of either report carries the name, model and serial
    resolved for its chassis, and none of these cells is ever [None], zero or
    the empty string: an attribute that is absent, or present but [None], zero
    or empty, shows as "UnknownChassis", "UNKNOWN_MODEL" or "UnknownSerial",
    and any other value shows as it is. *)
Theorem chassis_cells_never_empty (api : Api) (c : EquipmentChassis.t) (r : row) :
  writerow r ∈ BladesReport.chassis_rows api c
    ∨ writerow r ∈ ChassisReport.chassis_rows api c →
  (Chassis r = chassis_name c ∧ truthy (Chassis r) = true)
  ∧ (ChassisModel r = chassis_model_str c ∧ truthy (ChassisModel r) = true)
  ∧ (ChassisSerial r = chassis_serial_str c ∧ truthy (ChassisSerial r) = true)
  ∧ (EquipmentChassis.name c = None → Chassis r = PStr "UnknownChassis")
  ∧ (EquipmentChassis.model c = None → ChassisModel r = PStr "UNKNOWN_MODEL")
  ∧ (EquipmentChassis.serial c = None → ChassisSerial r = PStr "UnknownSerial")
  ∧ (∀ v, EquipmentChassis.name c = Some v →
          Chassis r = if truthy v then v else PStr "UnknownChassis")
  ∧ (∀ v, EquipmentChassis.model c = Some v →
          ChassisModel r = if truthy v then v else PStr "UNKNOWN_MODEL")
  ∧ (∀ v, EquipmentChassis.serial c = Some v →
          ChassisSerial r = if truthy v then v else PStr "UnknownSerial").
Proof.
  assert (Hcells : ∀ slots i,
    Chassis (slot_row c slots i) = chassis_name c
    ∧ ChassisModel (slot_row c slots i) = chassis_model_str c
    ∧ ChassisSerial (slot_row c slots i) = chassis_serial_str c).
  { intros slots i. unfold slot_row. by destruct (OrderedDict.get i slots). }
  intros Hr.
  assert (∃ slots i, r = slot_row c slots i) as (slots & i & ->).
  { destruct Hr as [Hr|Hr]; apply elem_of_slot_rows in Hr as (i & _ & [= ->]);
      eauto. }
  destruct (Hcells slots i) as (-> & -> & ->).
  unfold chassis_name, chassis_model_str, chassis_serial_str.
  split_and!; try (by apply truthy_attr_or); try done;
    try (by intros ->); by intros v ->.
Qed.

Lemma chassis_cells_never_empty_witness :
  let c := EquipmentChassis.Build (Some (PStr "")) None (Some PNone) None
             (Some (PInt 0)) in
  let c' := EquipmentChassis.Build (Some (PStr "rack-7")) None
              (Some (PInt 0)) (Some (PStr "FOX2")) None in
  (Chassis (slot_row c [] 1) = PStr "UnknownChassis"
   ∧ ChassisModel (slot_row c [] 1) = PStr "UNKNOWN_MODEL"
   ∧ ChassisSerial (slot_row c [] 1) = PStr "UnknownSerial")
  ∧ (Chassis (slot_row c' [] 8) = PStr "rack-7"
     ∧ ChassisModel (slot_row c' [] 8) = PStr "UNKNOWN_MODEL"
     ∧ ChassisSerial (slot_row c' [] 8) = PStr "FOX2").
Proof.
  intros c c'. split.
  - destruct (chassis_cells_never_empty (Sample.fleet []) c (slot_row c [] 1))
      as (_ & _ & _ & _ & _ & Hserial & Hname & Hmodel & _).
    + right. apply list_elem_of_here.
    + split_and!.
      * apply (Hname (PStr "")). reflexivity.
      * apply (Hmodel PNone). reflexivity.
      * apply Hserial. reflexivity.
  - destruct (chassis_cells_never_empty (Sample.fleet []) c'
                (slot_row c' [] 8))
      as (_ & _ & _ & _ & _ & _ & Hname & Hmodel & Hserial).
    + left. do 7 apply list_elem_of_further. apply list_elem_of_here.
    + split_and!.
      * apply (Hname (PStr "rack-7")). reflexivity.
      * apply (Hmodel (PInt 0)). reflexivity.
      * apply (Hserial (PStr "FOX2")). reflexivity.
Defined.

(** ** The blade cells of [blades.py] *)

Lemma BladesReport_details_truthy (b : ComputeBlade.t) :
  truthy (Details.model (BladesReport.details_of b)) = true
  ∧ truthy (Details.serial (BladesReport.details_of b)) = true.
Proof. split; by apply truthy_attr_or. Qed.

(** X4.  In [blades.py] the model and serial shown for an occupied slot are
    never [None], zero or empty ("UnknownBladeModel" and "UnknownBladeSerial"
    stand in for absent or empty attributes), so a row has an empty
    BladeModel, or an empty BladeSerial, exactly when no blade holds its
    slot. *)
Theorem blades_report_empty_cells (api : Api) (c : EquipmentChassis.t) (i : Z) :
  1 ≤ i ≤ total_slots c →
  let direct :=
    BladesReport.populated_slots_details
      (get_compute_blade_list api (chassis_moid c)) in
  ∃ r, BladesReport.chassis_rows api c !! Z.to_nat (i - 1) = Some (writerow r)
       ∧ (BladeModel r = PStr "" ↔ OrderedDict.get i direct = None)
       ∧ (BladeSerial r = PStr "" ↔ OrderedDict.get i direct = None)
       ∧ (is_Some (OrderedDict.get i direct) →
          truthy (BladeModel r) = true ∧ truthy (BladeSerial r) = true).
Proof.
  intros Hi direct. eexists. split; [by apply slot_rows_lookup|].
  unfold slot_row. fold direct.
  destruct (OrderedDict.get i direct) as [d|] eqn:E; simpl.
  - apply populate_origin in E as (b & _ & _ & <-).
    destruct (BladesReport_details_truthy b) as [Hm Hs].
    split_and!; [| |done].
    + split; [|done]. intros Heq. rewrite Heq in Hm. done.
    + split; [|done]. intros Heq. rewrite Heq in Hs. done.
  - split_and!; [done | done |]. by intros [? ?].
Qed.

Lemma blades_report_empty_cells_witness :
  ∃ r, BladesReport.chassis_rows
         (Sample.fleet [ComputeBlade.Build (Some (PInt 2)) None
                          (Some (PStr "")) None])
         Sample.operable !! 1%nat = Some (writerow r)
       ∧ truthy (BladeModel r) = true ∧ truthy (BladeSerial r) = true.
Proof.
  destruct (blades_report_empty_cells
              (Sample.fleet [ComputeBlade.Build (Some (PInt 2)) None
                               (Some (PStr "")) None])
              Sample.operable 2) as (r & Hr & _ & _ & Htruthy).
  - vm_compute. split; discriminate.
  - exists r. split; [exact Hr|]. apply Htruthy. vm_compute. eauto.
Defined.

(** ** When the two reports agree *)

Lemma foldl_record_blade_ext (f g : ComputeBlade.t → Details.t)
    (d : odict Z Details.t) (l : list ComputeBlade.t) :
  (∀ b, b ∈ l → f b = g b) →
  foldl (record_blade f) d l = foldl (record_blade g) d l.
Proof.
  revert d. induction l as [|b l IH]; intros d Hfg; [done|]. simpl.
  rewrite IH by (intros b' Hb'; apply Hfg; by apply elem_of_cons; right).
  unfold record_blade. rewrite (Hfg b) by (apply elem_of_cons; by left). done.
Qed.

Lemma foldl_expand_no_two_slot (total_slots : Z)
    (e l : odict Z Details.t) (k : Z) :
  NoDup (OrderedDict.keys l) →
  (∀ j d, (j, d) ∈ l → in_TWO_SLOT_MODELS (Details.model d) = false) →
  OrderedDict.get k (foldl (ChassisReport.expand_item total_slots) e l)
  = match OrderedDict.get k l with
    | Some v => Some v
    | None => OrderedDict.get k e
    end.
Proof.
  revert e. unfold OrderedDict.keys.
  induction l as [|[j d] l IH]; intros e Hnd Hl; [done|].
  apply NoDup_cons in Hnd as [Hj Hnd]. cbn [foldl].
  rewrite IH; [|done|intros j' d' H'; apply (Hl j' d'); by apply elem_of_cons; right].
  assert (Hitem : ChassisReport.expand_item total_slots e (j, d)
                  = OrderedDict.set j d e).
  { unfold ChassisReport.expand_item.
    by rewrite (Hl j d) by (apply elem_of_cons; by left). }
  rewrite Hitem. simpl. destruct (decide (k = j)) as [->|Hne].
  - apply get_None_keys in Hj. simpl in Hj. rewrite Hj. apply get_set_eq.
  - rewrite get_set_ne by done. done.
Qed.

(** X5.  The two reports write the same rows for a chassis whose blades all
    have a model and a serial that [blades.py] and [chassis.py] read alike
    (absent, or present and not empty) and of which none is a two-slot
    model. *)
Theorem reports_agree_without_two_slot (api : Api) (c : EquipmentChassis.t) :
  (∀ b, b ∈ blades_of (get_compute_blade_list api (chassis_moid c)) →
        ChassisReport.details_of b = BladesReport.details_of b
        ∧ in_TWO_SLOT_MODELS (Details.model (BladesReport.details_of b)) = false) →
  ChassisReport.chassis_rows api c = BladesReport.chassis_rows api c.
Proof.
  intros Hb.
  unfold ChassisReport.chassis_rows, BladesReport.chassis_rows, slot_rows.
  set (resp := get_compute_blade_list api (chassis_moid c)) in *.
  assert (Hpop : ChassisReport.populated_slots_details resp
                 = BladesReport.populated_slots_details resp).
  { unfold ChassisReport.populated_slots_details,
      BladesReport.populated_slots_details.
    rewrite !populate_blades_of. apply foldl_record_blade_ext.
    intros b Hin. by apply Hb. }
  rewrite Hpop. apply list_fmap_ext. intros _ i _. f_equal.
  unfold slot_row, ChassisReport.expanded_slots_details.
  rewrite foldl_expand_no_two_slot.
  - by destruct (OrderedDict.get i _).
  - apply populate_NoDup.
  - intros j d Hin.
    apply elem_get, populate_origin in Hin as (b & Hin & _ & <-);
      [by apply Hb | apply populate_NoDup].
Qed.

Lemma reports_agree_without_two_slot_witness :
  ChassisReport.chassis_rows
    (Sample.fleet [Sample.blade (PInt 2) "UCSB-B200-M5" "SN2";
                   ComputeBlade.Build (Some (PStr "7")) None None None])
    Sample.operable
  = BladesReport.chassis_rows
      (Sample.fleet [Sample.blade (PInt 2) "UCSB-B200-M5" "SN2";
                     ComputeBlade.Build (Some (PStr "7")) None None None])
      Sample.operable.
Proof.
  apply reports_agree_without_two_slot. intros b Hb.
  apply elem_of_cons in Hb as [->|Hb];
    [|apply list_elem_of_singleton in Hb as ->]; split; reflexivity.
Defined.

(** ** Blades outside the slot range *)

Section out_of_range.
Variable details_of : ComputeBlade.t → Details.t.
Implicit Types (d e : odict Z Details.t) (l : list ComputeBlade.t).

Lemma record_blade_get_congr (i : Z) d d' (b : ComputeBlade.t) :
  OrderedDict.get i d = OrderedDict.get i d' →
  OrderedDict.get i (record_blade details_of d b)
  = OrderedDict.get i (record_blade details_of d' b).
Proof.
  intros Hd. unfold record_blade.
  destruct (parsed_slot_id b) as [j|]; [|done].
  rewrite !get_set. by case_decide.
Qed.

Lemma foldl_record_blade_get_filter (P : ComputeBlade.t → bool) (i : Z) d d' l :
  OrderedDict.get i d = OrderedDict.get i d' →
  (∀ b, b ∈ l → parsed_slot_id b = Some i → P b = true) →
  OrderedDict.get i (foldl (record_blade details_of) d l)
  = OrderedDict.get i
      (foldl (record_blade details_of) d' (filter (λ b, P b = true) l)).
Proof.
  revert d d'. induction l as [|b l IH]; intros d d' Hd HP; [done|].
  assert (HP' : ∀ b', b' ∈ l → parsed_slot_id b' = Some i → P b' = true)
    by (intros b' Hb'; apply HP; by apply elem_of_cons; right).
  destruct (P b) eqn:E.
  - rewrite filter_cons_True by done. simpl.
    apply IH; [by apply record_blade_get_congr | done].
  - rewrite filter_cons_False by (rewrite E; done). simpl.
    apply IH; [|done]. rewrite <- Hd. unfold record_blade.
    destruct (parsed_slot_id b) as [j|] eqn:Hj; [|done].
    apply get_set_ne. intros ->.
    rewrite (HP b) in E; [done | apply elem_of_cons; by left | done].
Qed.

Lemma slot_within_spec (lo hi : Z) (b : ComputeBlade.t) (k : Z) :
  parsed_slot_id b = Some k → slot_within lo hi b = true ↔ lo ≤ k ≤ hi.
Proof. unfold slot_within. intros ->. lia. Qed.

Lemma populate_get_within (lo hi i : Z) (resp : response ComputeBlade.t) :
  lo ≤ i ≤ hi →
  OrderedDict.get i (populate details_of resp)
  = OrderedDict.get i
      (foldl (record_blade details_of) []
         (filter (λ b, slot_within lo hi b = true) (blades_of resp))).
Proof.
  intros Hi. rewrite populate_blades_of.
  apply foldl_record_blade_get_filter; [done|].
  intros b _ Hb. by apply (slot_within_spec lo hi b i).
Qed.

End out_of_range.

Lemma expand_item_get_congr (total_slots i : Z)
    (e e' : odict Z Details.t) (item : Z * Details.t) :
  OrderedDict.get i e = OrderedDict.get i e' →
  OrderedDict.get i (ChassisReport.expand_item total_slots e item)
  = OrderedDict.get i (ChassisReport.expand_item total_slots e' item).
Proof.
  intros He. destruct item as [j d]. unfold ChassisReport.expand_item.
  destruct (in_TWO_SLOT_MODELS _); [destruct (_ <=? _)|];
    rewrite !get_set; by repeat case_decide.
Qed.

(** The lookups of the expanded map at [i] and at [i - 1] of the direct map
    decide its lookup at [i]. *)
Lemma expanded_get_congr (total_slots i : Z) (l l' : list ComputeBlade.t)
    (details_of : ComputeBlade.t → Details.t) :
  filter (λ b, slot_within (i - 1) i b = true) l
  = filter (λ b, slot_within (i - 1) i b = true) l' →
  OrderedDict.get i
    (ChassisReport.expanded_slots_details total_slots
       (foldl (record_blade details_of) [] l))
  = OrderedDict.get i
      (ChassisReport.expanded_slots_details total_slots
         (foldl (record_blade details_of) [] l')).
Proof.
  set (P := λ b, slot_within (i - 1) i b).
  set (K := λ it : Z * Details.t, i - 1 ≤ it.1 ≤ i).
  assert (Hset : ∀ (j : Z) (v : Details.t) (d : list (Z * Details.t)),
    filter K (OrderedDict.set j v d)
    = if decide (i - 1 ≤ j ≤ i) then OrderedDict.set j v (filter K d)
      else filter K d).
  { intros j v d. unfold OrderedDict.odict.
    induction d as [|[j' v'] d IH]; cbn [OrderedDict.set].
    - case_decide;
        [rewrite filter_cons_True by done | rewrite filter_cons_False by done];
        reflexivity.
    - destruct (decide (j = j')) as [->|Hne].
      + destruct (decide (i - 1 ≤ j' ≤ i)).
        * rewrite !filter_cons_True by done. cbn [OrderedDict.set].
          by rewrite decide_True.
        * by rewrite !filter_cons_False by done.
      + destruct (decide (K (j', v'))) as [HK|HK].
        * rewrite !filter_cons_True by done. rewrite IH.
          case_decide; cbn [OrderedDict.set]; [by rewrite decide_False | done].
        * rewrite !filter_cons_False by done. apply IH. }
  assert (Hpop : ∀ l0 (d : list (Z * Details.t)),
    filter K (foldl (record_blade details_of) d l0)
    = foldl (record_blade details_of) (filter K d)
        (filter (λ b, P b = true) l0)).
  { unfold OrderedDict.odict.
    induction l0 as [|b l0 IH]; intros d; [done|]. cbn [foldl]. rewrite IH.
    assert (HP : P b = true ↔ ∃ j, parsed_slot_id b = Some j ∧ i - 1 ≤ j ≤ i).
    { unfold P, slot_within. destruct (parsed_slot_id b) as [j|].
      - split; [intros; exists j; split; [done|lia] | intros (? & [= <-] & ?); lia].
      - split; [done | by intros (? & ? & ?)]. }
    destruct (parsed_slot_id b) as [j|] eqn:Hj.
    - assert (Hrb : ∀ d0, record_blade details_of d0 b
                          = OrderedDict.set j (details_of b) d0)
        by (intros d0; unfold record_blade; by rewrite Hj).
      rewrite Hrb, Hset. case_decide as Hin.
      + rewrite filter_cons_True by (apply HP; eauto).
        cbn [foldl]. by rewrite Hrb.
      + rewrite filter_cons_False; [done|].
        intros (j' & [= <-] & ?)%HP. done.
    - assert (Hrb : record_blade details_of d b = d)
        by (unfold record_blade; by rewrite Hj).
      rewrite Hrb. rewrite filter_cons_False; [done|].
      by intros (j' & ? & ?)%HP. }
  assert (Hexp : ∀ (pop e e' : list (Z * Details.t)),
    OrderedDict.get i e = OrderedDict.get i e' →
    OrderedDict.get i (foldl (ChassisReport.expand_item total_slots) e pop)
    = OrderedDict.get i
        (foldl (ChassisReport.expand_item total_slots) e' (filter K pop))).
  { unfold OrderedDict.odict.
    induction pop as [|[j v] pop IH]; intros e e' He; [done|].
    destruct (decide (K (j, v))) as [HK|HK].
    - rewrite filter_cons_True by done. cbn [foldl].
      apply IH. by apply expand_item_get_congr.
    - rewrite filter_cons_False by done. cbn [foldl].
      apply IH. rewrite <- He. unfold K in HK. simpl in HK.
      apply expand_item_untouched; lia. }
  intros Hl. unfold ChassisReport.expanded_slots_details.
  rewrite (Hexp (foldl _ [] l) [] []) by done.
  rewrite (Hexp (foldl _ [] l') [] []) by done.
  by rewrite !Hpop, Hl.
Qed.

Lemma filter_filter_weaken {A} (Q R : A → Prop)
    `{∀ x, Decision (Q x)} `{∀ x, Decision (R x)} (l : list A) :
  (∀ x, Q x → R x) → filter Q (filter R l) = filter Q l.
Proof.
  intros HQR. induction l as [|x l IH]; [done|].
  destruct (decide (R x)) as [HR|HR].
  - rewrite (filter_cons_True R) by done.
    destruct (decide (Q x)).
    + rewrite !(filter_cons_True Q) by done. by rewrite IH.
    + by rewrite !(filter_cons_False Q) by done.
  - rewrite (filter_cons_False R) by done.
    rewrite (filter_cons_False Q) by (intros HQ; by apply HR, HQR). done.
Qed.

Lemma slot_row_get_congr c (slots slots' : odict Z Details.t) (i : Z) :
  OrderedDict.get i slots = OrderedDict.get i slots' →
  slot_row c slots i = slot_row c slots' i.
Proof. unfold slot_row. by intros ->. Qed.

Lemma slot_rows_get_congr c (slots slots' : odict Z Details.t) :
  (∀ i, 1 ≤ i ≤ total_slots c →
        OrderedDict.get i slots = OrderedDict.get i slots') →
  slot_rows c slots = slot_rows c slots'.
Proof.
  intros Hget. unfold slot_rows. apply list_fmap_ext. intros n i Hi. f_equal.
  apply slot_row_get_congr, Hget, elem_of_py_range_from_1.
  by eapply list_elem_of_lookup_2.
Qed.

(** X6.  A blade whose slot index lies outside the slots of the chassis
    changes no row: the rows of [blades.py] depend only on the blades with a
    slot index from 1 to [total_slots], those of [chassis.py] only on the
    blades with a slot index from 0 to [total_slots] (a two-slot blade at
    slot 0 reaches row 1). *)
Theorem out_of_range_blades_change_no_row (api api' : Api)
    (c : EquipmentChassis.t) :
  let blades := blades_of (get_compute_blade_list api (chassis_moid c)) in
  let blades' := blades_of (get_compute_blade_list api' (chassis_moid c)) in
  (filter (λ b, slot_within 1 (total_slots c) b = true) blades
   = filter (λ b, slot_within 1 (total_slots c) b = true) blades' →
   BladesReport.chassis_rows api c = BladesReport.chassis_rows api' c)
  ∧ (filter (λ b, slot_within 0 (total_slots c) b = true) blades
     = filter (λ b, slot_within 0 (total_slots c) b = true) blades' →
     ChassisReport.chassis_rows api c = ChassisReport.chassis_rows api' c).
Proof.
  intros blades blades'. split; intros Hsame.
  - unfold BladesReport.chassis_rows, BladesReport.populated_slots_details.
    apply slot_rows_get_congr. intros i Hi.
    rewrite !(populate_get_within _ 1 (total_slots c)) by done.
    fold blades blades'. by rewrite Hsame.
  - unfold ChassisReport.chassis_rows, ChassisReport.populated_slots_details.
    apply slot_rows_get_congr. intros i Hi.
    rewrite !populate_blades_of. fold blades blades'.
    apply expanded_get_congr.
    rewrite <- (filter_filter_weaken _
                  (λ b, slot_within 0 (total_slots c) b = true) blades),
            <- (filter_filter_weaken _
                  (λ b, slot_within 0 (total_slots c) b = true) blades').
    + by rewrite Hsame.
    + unfold slot_within. intros b. destruct (parsed_slot_id b); [lia|done].
    + unfold slot_within. intros b. destruct (parsed_slot_id b); [lia|done].
Qed.

Lemma out_of_range_blades_change_no_row_witness :
  BladesReport.chassis_rows
    (Sample.fleet [Sample.blade (PInt 9) "UCSB-B200-M5" "SN9";
                   Sample.blade (PInt 2) "UCSB-B200-M5" "SN2";
                   Sample.blade (PInt 0) "UCSX-410C-M7" "SN0"])
    Sample.operable
  = BladesReport.chassis_rows
      (Sample.fleet [Sample.blade (PInt 2) "UCSB-B200-M5" "SN2"])
      Sample.operable
  ∧ ChassisReport.chassis_rows
      (Sample.fleet [Sample.blade (PInt 9) "UCSB-B200-M5" "SN9";
                     Sample.blade (PInt 2) "UCSB-B200-M5" "SN2";
                     Sample.blade (PInt (-1)) "UCSX-410C-M7" "SN0"])
      Sample.operable
    = ChassisReport.chassis_rows
        (Sample.fleet [Sample.blade (PInt 2) "UCSB-B200-M5" "SN2"])
        Sample.operable.
Proof.
  split.
  - apply (out_of_range_blades_change_no_row
             (Sample.fleet [Sample.blade (PInt 9) "UCSB-B200-M5" "SN9";
                            Sample.blade (PInt 2) "UCSB-B200-M5" "SN2";
                            Sample.blade (PInt 0) "UCSX-410C-M7" "SN0"])
             (Sample.fleet [Sample.blade (PInt 2) "UCSB-B200-M5" "SN2"])
             Sample.operable).
    reflexivity.
  - apply (out_of_range_blades_change_no_row
             (Sample.fleet [Sample.blade (PInt 9) "UCSB-B200-M5" "SN9";
                            Sample.blade (PInt 2) "UCSB-B200-M5" "SN2";
                            Sample.blade (PInt (-1)) "UCSX-410C-M7" "SN0"])
             (Sample.fleet [Sample.blade (PInt 2) "UCSB-B200-M5" "SN2"])
             Sample.operable).
    reflexivity.
Defined.

(** X7.  In [chassis.py] a two-slot blade of the direct map shows in the row
    of the next slot whenever that slot has a row and no blade is assigned to
    it directly; this holds for a blade recorded at slot 0 as well, which has
    no row of its own. *)
Theorem two_slot_blade_fills_next_row (api : Api) (c : EquipmentChassis.t)
    (s : Z) (d : Details.t) :
  OrderedDict.get s (populated_of api c) = Some d →
  in_TWO_SLOT_MODELS (Details.model d) = true →
  OrderedDict.get (s + 1) (populated_of api c) = None →
  1 ≤ s + 1 ≤ total_slots c →
  ∃ r, ChassisReport.chassis_rows api c !! Z.to_nat s = Some (writerow r)
       ∧ row_reports c (s + 1) (Some d) r.
Proof.
  intros Hs Htwo Hnext Hrange.
  assert (Hnd : NoDup (OrderedDict.keys (populated_of api c)))
    by apply populate_NoDup.
  apply get_Some_elem, list_elem_of_split in Hs as (l1 & l2 & Hpop).
  assert (Hexp : OrderedDict.get (s + 1)
            (ChassisReport.expanded_slots_details (total_slots c)
               (populated_of api c)) = Some d).
  { rewrite Hpop. apply expanded_last_writer.
    - apply expand_item_next; [done | lia].
    - intros j' d' Hin. split.
      + intros ->. apply get_None_keys in Hnext. apply Hnext.
        rewrite Hpop. unfold OrderedDict.keys.
        apply list_elem_of_fmap. exists (s + 1, d'). split; [done|].
        apply elem_of_app. right. apply elem_of_cons. by right.
      + intros Hj'. assert (j' = s) as -> by lia.
        rewrite Hpop in Hnd. unfold OrderedDict.keys in Hnd.
        rewrite fmap_app, fmap_cons in Hnd.
        apply NoDup_app in Hnd as (_ & _ & [Hs _]%NoDup_cons).
        apply Hs. apply list_elem_of_fmap. by exists (s, d'). }
  eexists. split.
  - replace s with (s + 1 - 1) at 1 by lia. by apply slot_rows_lookup.
  - unfold row_reports, slot_row. fold (populated_of api c). by rewrite Hexp.
Qed.

Lemma two_slot_blade_fills_next_row_witness :
  ∃ r, ChassisReport.chassis_rows
         (Sample.fleet [Sample.blade (PInt 0) "UCSX-410C-M7" "SN0"])
         Sample.operable !! 0%nat = Some (writerow r)
       ∧ row_reports Sample.operable 1
           (Some (Details.Build (PStr "UCSX-410C-M7") (PStr "SN0"))) r.
Proof.
  apply (two_slot_blade_fills_next_row
           (Sample.fleet [Sample.blade (PInt 0) "UCSX-410C-M7" "SN0"])
           Sample.operable 0
           (Details.Build (PStr "UCSX-410C-M7") (PStr "SN0"))).
  - reflexivity.
  - reflexivity.
  - reflexivity.
  - vm_compute. split; discriminate.
Defined.

(** ** The order of the keys of a dictionary *)

Section odict_key_order.
Context {K V : Type} `{EqDecision K}.
Implicit Types (k : K) (v : V) (d : odict K V).
Import OrderedDict.

Lemma keys_set_decide k v d :
  keys (set k v d) = if decide (k ∈ keys d) then keys d else keys d ++ [k].
Proof.
  rewrite keys_set. destruct (mem k d) eqn:E.
  - apply mem_keys in E. by rewrite decide_True.
  - rewrite decide_False; [done|]. intros Hin%mem_keys. congruence.
Qed.

Lemma keys_setdefault k v d :
  keys (setdefault k v d)
  = if decide (k ∈ keys d) then keys d else keys d ++ [k].
Proof.
  unfold setdefault. destruct (get k d) as [v'|] eqn:E.
  - rewrite decide_True; [done|]. apply mem_keys. unfold mem.
    rewrite E. by apply bool_decide_eq_true_2.
  - rewrite keys_set_decide. done.
Qed.

Lemma keys_set_present k v d : k ∈ keys d → keys (set k v d) = keys d.
Proof. intros Hk. by rewrite keys_set_decide, decide_True. Qed.

Lemma setdefault_present k v d : k ∈ keys (setdefault k v d).
Proof.
  rewrite keys_setdefault. case_decide; [done|].
  apply elem_of_app. right. apply list_elem_of_here.
Qed.

Lemma NoDup_keys_setdefault k v d :
  NoDup (keys d) → NoDup (keys (setdefault k v d)).
Proof.
  intros Hd. unfold setdefault.
  destruct (get k d); [done | by apply NoDup_keys_set].
Qed.

Lemma get_setdefault_ne k k' v d :
  k ≠ k' → get k' (setdefault k v d) = get k' d.
Proof.
  intros Hne. unfold setdefault.
  destruct (get k d); [done | by apply get_set_ne].
Qed.

Lemma get_setdefault_eq k v d :
  get k (setdefault k v d) = Some (default v (get k d)).
Proof.
  unfold setdefault. destruct (get k d) as [v'|] eqn:E; simpl; [done|].
  apply get_set_eq.
Qed.

End odict_key_order.

Lemma first_seen_step_spec {A} `{EqDecision A} (seen l : list A) :
  let r := foldl (λ seen x, if decide (x ∈ seen) then seen else seen ++ [x])
                 seen l in
  (NoDup seen → NoDup r) ∧ (∀ x, x ∈ r ↔ x ∈ seen ∨ x ∈ l).
Proof.
  revert seen. induction l as [|y l IH]; intros seen; cbn [foldl].
  - split; [done|]. intros x. rewrite elem_of_nil. tauto.
  - destruct (IH (if decide (y ∈ seen) then seen else seen ++ [y]))
      as [Hnd Hin].
    split.
    + intros Hseen. apply Hnd. case_decide; [done|].
      apply NoDup_app. split_and!; [done | | apply NoDup_singleton].
      by intros x Hx ->%list_elem_of_singleton.
    + intros x. rewrite Hin, elem_of_cons. case_decide as Hy.
      * split; [tauto|]. intros [?|[->|?]]; auto.
      * rewrite elem_of_app, list_elem_of_singleton. tauto.
Qed.

Lemma foldl_record_blade_keys (details_of : ComputeBlade.t → Details.t)
    (d : odict Z Details.t) (l : list ComputeBlade.t) :
  OrderedDict.keys (foldl (record_blade details_of) d l)
  = foldl (λ seen x, if decide (x ∈ seen) then seen else seen ++ [x])
          (OrderedDict.keys d) (omap parsed_slot_id l).
Proof.
  revert d. induction l as [|b l IH]; intros d; [done|].
  cbn [foldl]. rewrite IH. unfold record_blade. csimpl.
  destruct (parsed_slot_id b) as [k|]; [|done].
  cbn [foldl]. by rewrite keys_set_decide.
Qed.

(** X8.  The direct-assignment map of either report has exactly one entry for
    each distinct slot index that parses, in the order in which the indices
    first occur in the blade list: a blade that repeats a slot index adds no
    entry and moves none. *)
Theorem direct_map_keys_first_seen (resp : response ComputeBlade.t) :
  OrderedDict.keys (BladesReport.populated_slots_details resp)
    = first_seen (omap parsed_slot_id (blades_of resp))
  ∧ OrderedDict.keys (ChassisReport.populated_slots_details resp)
    = first_seen (omap parsed_slot_id (blades_of resp))
  ∧ NoDup (first_seen (omap parsed_slot_id (blades_of resp)))
  ∧ (∀ k, k ∈ first_seen (omap parsed_slot_id (blades_of resp))
          ↔ ∃ b, b ∈ blades_of resp ∧ parsed_slot_id b = Some k).
Proof.
  unfold BladesReport.populated_slots_details,
    ChassisReport.populated_slots_details.
  rewrite !populate_blades_of, !foldl_record_blade_keys.
  destruct (first_seen_step_spec [] (omap parsed_slot_id (blades_of resp)))
    as [Hnd Hin].
  split_and!; [done | done | apply Hnd; constructor |].
  intros k. unfold first_seen. rewrite Hin, elem_of_nil, list_elem_of_omap.
  tauto.
Qed.

(** ** The summary, label by label *)

Section label_facts.
Import ChassisReport.
Implicit Types (msc : summary) (sc : odict string Z) (m model : pyval)
  (s status : string).

Lemma label_count_add_to_count model status (n : Z) msc m s :
  label_count (add_to_count model status n msc) m s
  = label_count msc m s
    + if decide (model = m ∧ status = s) then n else 0.
Proof.
  unfold label_count, add_to_count. rewrite get_set.
  destruct (decide (model = m)) as [->|Hm]; simpl;
    [|rewrite decide_False by tauto; lia].
  rewrite get_set. destruct (decide (status = s)) as [->|Hs]; simpl.
  - rewrite decide_True by done. rewrite get_setdefault_eq. simpl.
    by destruct (OrderedDict.get s _).
  - rewrite decide_False by tauto. rewrite get_setdefault_ne by done. lia.
Qed.

Lemma label_count_setdefault model msc m s :
  label_count (OrderedDict.setdefault model [] msc) m s = label_count msc m s.
Proof.
  unfold label_count, OrderedDict.setdefault.
  case_match eqn:E; [done|].
  rewrite get_set. destruct (decide (model = m)) as [->|Hne]; [|done].
  unfold OrderedDict.odict in *. by rewrite E.
Qed.

Lemma label_count_count_blades model status (l : list Details.t) msc m s :
  label_count (foldl (λ msc _, add_to_count model status 1 msc) msc l) m s
  = label_count msc m s
    + if decide (model = m ∧ status = s) then Z.of_nat (length l) else 0.
Proof.
  revert msc. induction l as [|d l IH]; intros msc; simpl.
  - case_decide; lia.
  - rewrite IH, label_count_add_to_count. case_decide; lia.
Qed.

Lemma label_count_summarise api (c : EquipmentChassis.t) msc m s :
  label_count (summarise c (populated_of api c) msc) m s
  = label_count msc m s
    + if decide (chassis_model_str c = m) then counted_as api c s else 0.
Proof.
  unfold summarise, counted_as.
  destruct (Z.ltb_spec 0
    (total_slots c - slots_occupied_by_blades (populated_of api c))).
  - rewrite label_count_add_to_count, label_count_count_blades,
      label_count_setdefault.
    unfold OrderedDict.values. rewrite length_fmap.
    repeat case_decide; destruct_and?; subst; try lia;
      exfalso; intuition congruence.
  - rewrite label_count_count_blades, label_count_setdefault.
    unfold OrderedDict.values. rewrite length_fmap.
    repeat case_decide; destruct_and?; subst; try lia;
      exfalso; intuition congruence.
Qed.

Lemma label_count_foldl api (results : list EquipmentChassis.t)
    (st : state) m s :
  label_count (model_summary_counts (foldl (process_chassis api) st results)) m s
  = label_count (model_summary_counts st) m s
    + foldr Z.add 0
        ((λ c, counted_as api c s)
           <$> filter (λ c, chassis_model_str c = m) results).
Proof.
  revert st. induction results as [|c results IH]; intros st; simpl; [lia|].
  rewrite IH. unfold process_chassis at 1. cbn [model_summary_counts].
  fold (populated_of api c). rewrite label_count_summarise.
  destruct (decide (chassis_model_str c = m)) as [Hc|Hc].
  - rewrite filter_cons_True by done. csimpl. lia.
  - rewrite filter_cons_False by done. lia.
Qed.

End label_facts.

(** X9.  The count that [chassis.py] records for a status label under a
    chassis model is the number of blades recorded in the chassis of that
    model whose normalised state is the label, plus, for the label "Empty",
    the slots that their blades leave over (2 per two-slot blade, 1 per other
    blade, nothing when the blades take more than [total_slots]).  Blades
    outside the slot range count like the others, and a chassis whose state
    reads "Empty" adds its blades to the "Empty" count. *)
Theorem summary_count_of_label (api : Api)
    (results : list EquipmentChassis.t) (model : pyval) (status : string) :
  label_count
    (ChassisReport.model_summary_counts (ChassisReport.run api results))
    model status
  = foldr Z.add 0
      ((λ c, counted_as api c status)
         <$> filter (λ c, chassis_model_str c = model) results).
Proof.
  unfold ChassisReport.run. rewrite label_count_foldl.
  unfold label_count. simpl. lia.
Qed.

(** ** The entries of the summary *)

Section summary_invariant.
Import ChassisReport.
Variable Q : pyval → string → Prop.
Implicit Types (msc : summary) (model : pyval) (status : string).

Lemma well_formed_add_to_count model status (n : Z) msc :
  0 < n → Q model status →
  summary_well_formed Q msc →
  summary_well_formed Q (add_to_count model status n msc).
Proof.
  intros Hn HQ [Hnd Hmsc]. unfold add_to_count. split.
  - by apply NoDup_keys_set.
  - intros m sc. rewrite get_set. case_decide as Hm; [|by apply Hmsc].
    subst m. intros [= <-].
    assert (Hsc0 : NoDup (OrderedDict.keys
                    (default [] (OrderedDict.get model msc)))
             ∧ ∀ s k, OrderedDict.get s
                        (default [] (OrderedDict.get model msc)) = Some k →
                      0 < k ∧ Q model s).
    { destruct (OrderedDict.get model msc) as [sc0|] eqn:E; simpl.
      - by apply Hmsc.
      - split; [constructor | done]. }
    destruct Hsc0 as [Hnd0 Hsc0]. split.
    + by apply NoDup_keys_set, NoDup_keys_setdefault.
    + intros s k. rewrite get_set. case_decide as Hs.
      * subst s. intros [= <-]. split; [|done].
        rewrite get_setdefault_eq. simpl.
        destruct (OrderedDict.get status _) as [k|] eqn:Ek; simpl; [|lia].
        apply Hsc0 in Ek as [? _]. lia.
      * rewrite get_setdefault_ne by done. apply Hsc0.
Qed.

Lemma well_formed_setdefault model msc :
  summary_well_formed Q msc →
  summary_well_formed Q (OrderedDict.setdefault model [] msc).
Proof.
  intros [Hnd Hmsc]. split; [by apply NoDup_keys_setdefault|].
  intros m sc. unfold OrderedDict.setdefault.
  case_match eqn:E; [by apply Hmsc|].
  rewrite get_set. case_decide; [|by apply Hmsc].
  intros [= <-]. split; [constructor | done].
Qed.

Lemma well_formed_summarise (c : EquipmentChassis.t)
    (populated : odict Z Details.t) msc :
  Q (chassis_model_str c) (reported_chassis_oper_state c) →
  Q (chassis_model_str c) "Empty" →
  summary_well_formed Q msc →
  summary_well_formed Q (summarise c populated msc).
Proof.
  intros Hstate Hempty Hmsc. unfold summarise.
  assert (Hblades : ∀ (l : list Details.t) msc0,
    summary_well_formed Q msc0 →
    summary_well_formed Q
      (foldl (λ msc _, add_to_count (chassis_model_str c)
                         (reported_chassis_oper_state c) 1 msc) msc0 l)).
  { induction l as [|d l IH]; intros msc0 H0; [done|]. simpl.
    apply IH, well_formed_add_to_count; [lia | done | done]. }
  destruct (Z.ltb_spec 0 (total_slots c - slots_occupied_by_blades populated)).
  - apply well_formed_add_to_count; [done | done |].
    by apply Hblades, well_formed_setdefault.
  - by apply Hblades, well_formed_setdefault.
Qed.

Lemma well_formed_foldl api (l : list EquipmentChassis.t) (st : state) :
  (∀ c, c ∈ l → Q (chassis_model_str c) (reported_chassis_oper_state c)
                ∧ Q (chassis_model_str c) "Empty") →
  summary_well_formed Q (model_summary_counts st) →
  summary_well_formed Q
    (model_summary_counts (foldl (process_chassis api) st l)).
Proof.
  revert st. induction l as [|c l IH]; intros st HQ Hst; [done|].
  cbn [foldl]. apply IH.
  - intros c' Hc'. apply HQ. by apply elem_of_cons; right.
  - unfold process_chassis. cbn [model_summary_counts].
    destruct (HQ c) as [? ?]; [apply elem_of_cons; by left|].
    by apply well_formed_summarise.
Qed.

End summary_invariant.

(** X10.  Every entry of the summary that [chassis.py] writes has a positive
    count, which is the count of its label; its label is "Empty" or the
    normalised state of a chassis of its model in the fleet; and no model, and
    under a model no label, occurs twice. *)
Theorem summary_entries_well_formed (api : Api)
    (results : list EquipmentChassis.t)
    (model : pyval) (sc : odict string Z) (status : string) (n : Z) :
  let msc :=
    ChassisReport.model_summary_counts (ChassisReport.run api results) in
  (model, sc) ∈ msc → (status, n) ∈ sc →
  0 < n
  ∧ label_count msc model status = n
  ∧ label_of_fleet results model status
  ∧ NoDup (OrderedDict.keys msc)
  ∧ NoDup (OrderedDict.keys sc).
Proof.
  intros msc Hmodel Hstatus.
  assert (Hwf : summary_well_formed (label_of_fleet results) msc).
  { apply well_formed_foldl.
    - intros c Hc. split; exists c; split_and!; auto.
    - split; [constructor | done]. }
  destruct Hwf as [Hnd Hwf].
  apply elem_get in Hmodel; [|done].
  destruct (Hwf model sc Hmodel) as [Hndsc Hsc].
  apply elem_get in Hstatus; [|done].
  destruct (Hsc status n Hstatus) as [Hn HQ].
  split_and!; try done.
  unfold label_count. fold msc. unfold OrderedDict.odict in *.
  by rewrite Hmodel; simpl; rewrite Hstatus.
Qed.

Lemma summary_entries_well_formed_witness :
  0 < 6
  ∧ label_count
      (ChassisReport.model_summary_counts
         (ChassisReport.run
            (Sample.fleet [Sample.blade (PInt 3) "UCSX-410C-M7" "SN1"])
            [Sample.operable]))
      (PStr "UCSB-5108-AC2") "Empty" = 6.
Proof.
  destruct (summary_entries_well_formed
              (Sample.fleet [Sample.blade (PInt 3) "UCSX-410C-M7" "SN1"])
              [Sample.operable] (PStr "UCSB-5108-AC2")
              [("operable", 1); ("Empty", 6)] "Empty" 6)
    as (Hpos & Hcount & _).
  - apply list_elem_of_here.
  - apply list_elem_of_further, list_elem_of_here.
  - split; [exact Hpos | exact Hcount].
Defined.

(** ** The models of the summary *)

Section summary_models.
Import ChassisReport.
Implicit Types (msc : summary) (model : pyval).

Lemma keys_add_to_count model (status : string) (n : Z) msc :
  model ∈ OrderedDict.keys msc →
  OrderedDict.keys (add_to_count model status n msc) = OrderedDict.keys msc.
Proof. intros Hin. unfold add_to_count. by apply keys_set_present. Qed.

Lemma keys_summarise (c : EquipmentChassis.t)
    (populated : odict Z Details.t) msc :
  OrderedDict.keys (summarise c populated msc)
  = if decide (chassis_model_str c ∈ OrderedDict.keys msc)
    then OrderedDict.keys msc
    else OrderedDict.keys msc ++ [chassis_model_str c].
Proof.
  unfold summarise.
  rewrite <- (keys_setdefault (chassis_model_str c) [] msc).
  set (msc0 := OrderedDict.setdefault (chassis_model_str c) [] msc).
  assert (H0 : chassis_model_str c ∈ OrderedDict.keys msc0)
    by apply setdefault_present.
  assert (Hblades : ∀ (l : list Details.t) msc1,
    chassis_model_str c ∈ OrderedDict.keys msc1 →
    OrderedDict.keys
      (foldl (λ msc _, add_to_count (chassis_model_str c)
                         (reported_chassis_oper_state c) 1 msc) msc1 l)
    = OrderedDict.keys msc1).
  { induction l as [|d l IH]; intros msc1 H1; [done|]. simpl.
    rewrite IH; rewrite keys_add_to_count; done. }
  destruct (0 <? _).
  - rewrite keys_add_to_count; rewrite Hblades; done.
  - by rewrite Hblades.
Qed.

Lemma keys_foldl api (results : list EquipmentChassis.t) (st : state) :
  OrderedDict.keys
    (model_summary_counts (foldl (process_chassis api) st results))
  = foldl (λ seen x, if decide (x ∈ seen) then seen else seen ++ [x])
          (OrderedDict.keys (model_summary_counts st))
          (chassis_model_str <$> results).
Proof.
  revert st. induction results as [|c results IH]; intros st; [done|].
  csimpl. rewrite IH. unfold process_chassis at 1.
  cbn [model_summary_counts]. by rewrite keys_summarise.
Qed.

Lemma counted_pos api (c : EquipmentChassis.t) : 0 < counted api c.
Proof.
  unfold counted. rewrite slots_occupied_by_blades_eq, total_slots_eight.
  unfold two_slot_entries, OrderedDict.values.
  destruct (populated_of api c) as [|item pop]; simpl; lia.
Qed.

Lemma sum_counted_pos api (l : list EquipmentChassis.t) :
  l ≠ [] → 0 < foldr Z.add 0 (counted api <$> l).
Proof.
  assert (Hnonneg : ∀ l', 0 ≤ foldr Z.add 0 (counted api <$> l')).
  { induction l' as [|c' l' IH]; csimpl; [lia|].
    pose proof (counted_pos api c'). lia. }
  destruct l as [|c l]; [done|]. intros _. csimpl.
  pose proof (counted_pos api c). pose proof (Hnonneg l). lia.
Qed.

End summary_models.

(** X11.  The models of the summary of [chassis.py] are the distinct chassis
    models of the fleet in the order in which they first occur in the chassis
    list, and every one of them has counts that sum to more than zero, so
    that each model of the fleet has at least one row in the summary
    block. *)
Theorem summary_models_first_seen (api : Api)
    (results : list EquipmentChassis.t) :
  let msc :=
    ChassisReport.model_summary_counts (ChassisReport.run api results) in
  OrderedDict.keys msc = first_seen (chassis_model_str <$> results)
  ∧ NoDup (OrderedDict.keys msc)
  ∧ (∀ model, model ∈ OrderedDict.keys msc
              ↔ ∃ c, c ∈ results ∧ chassis_model_str c = model)
  ∧ (∀ model, model ∈ OrderedDict.keys msc → 0 < status_total msc model).
Proof.
  intros msc.
  assert (Hkeys : OrderedDict.keys msc
                  = first_seen (chassis_model_str <$> results)).
  { unfold msc, ChassisReport.run. by rewrite keys_foldl. }
  destruct (first_seen_step_spec [] (chassis_model_str <$> results))
    as [Hnd Hin].
  assert (Hmem : ∀ model, model ∈ OrderedDict.keys msc
                          ↔ ∃ c, c ∈ results ∧ chassis_model_str c = model).
  { intros model. rewrite Hkeys. unfold first_seen.
    rewrite Hin, elem_of_nil, list_elem_of_fmap. split.
    - intros [[]|(c & -> & Hc)]. eauto.
    - intros (c & Hc & <-). right. eauto. }
  split_and!; [done | rewrite Hkeys; apply Hnd; constructor | done |].
  intros model (c & Hc & Hmodel)%Hmem.
  unfold msc, ChassisReport.run. rewrite status_total_foldl.
  unfold status_total at 1. simpl.
  apply sum_counted_pos. intros Hnil.
  assert (Hcin : c ∈ filter (λ c, chassis_model_str c = model) results)
    by (by apply list_elem_of_filter).
  rewrite Hnil in Hcin. by apply elem_of_nil in Hcin.
Qed.

(** ** Runs in which a call of the API client raises *)

Section failing_runs.
Import Failing.
Variables (client : Client) (api : Api).
Hypothesis Hagrees : agrees client api.

Lemma fetched_rows (c : EquipmentChassis.t) resp :
  blade_list_call client (chassis_moid c) = Returns resp →
  get_compute_blade_list api (chassis_moid c) = resp.
Proof. destruct Hagrees as [_ Hblades]. apply Hblades. Qed.

(** Either every blade list of [results] is fetched, or some chassis is the
    first whose call raises. *)
Lemma first_failure (results : list EquipmentChassis.t) :
  (∀ c, c ∈ results → blades_fetched client c)
  ∨ ∃ processed c rest,
      results = processed ++ c :: rest
      ∧ (∀ c', c' ∈ processed → blades_fetched client c')
      ∧ blade_list_call client (chassis_moid c) = Raises.
Proof.
  induction results as [|c results [Hall|(processed & c0 & rest & -> & Hp & Hc0)]].
  - left. by intros c ?%elem_of_nil.
  - destruct (blade_list_call client (chassis_moid c)) as [resp|] eqn:E.
    + left. intros c' [->|Hc']%elem_of_cons; [by exists resp | by apply Hall].
    + right. exists [], c, results. split_and!; [done | | done].
      by intros c' ?%elem_of_nil.
  - destruct (blade_list_call client (chassis_moid c)) as [resp|] eqn:E.
    + right. exists (c :: processed), c0, rest. split_and!; [done | | done].
      intros c' [->|Hc']%elem_of_cons; [by exists resp | by apply Hp].
    + right. exists [], c, (processed ++ c0 :: rest).
      split_and!; [done | | done]. by intros c' ?%elem_of_nil.
Qed.

Lemma blades_loop_fetched (results : list EquipmentChassis.t) (out : list line) :
  (∀ c, c ∈ results → blades_fetched client c) →
  blades_loop client out results
  = {| written := out ++ (results ≫= BladesReport.chassis_rows api);
       interrupted := false |}.
Proof.
  revert out. induction results as [|c results IH]; intros out Hall.
  - simpl. by rewrite app_nil_r.
  - destruct (Hall c) as [resp Hresp]; [apply elem_of_cons; by left|].
    cbn [blades_loop]. rewrite Hresp, IH
      by (intros c' Hc'; apply Hall; by apply elem_of_cons; right).
    csimpl. rewrite <- app_assoc. unfold BladesReport.chassis_rows.
    by rewrite (fetched_rows c resp).
Qed.

Lemma blades_loop_first_failure
    (processed rest : list EquipmentChassis.t) (c : EquipmentChassis.t)
    (out : list line) :
  (∀ c', c' ∈ processed → blades_fetched client c') →
  blade_list_call client (chassis_moid c) = Raises →
  blades_loop client out (processed ++ c :: rest)
  = {| written := out ++ (processed ≫= BladesReport.chassis_rows api);
       interrupted := true |}.
Proof.
  intros Hp Hc. revert out Hp.
  induction processed as [|c0 processed IH]; intros out Hp.
  - cbn [app blades_loop]. rewrite Hc. simpl. by rewrite app_nil_r.
  - destruct (Hp c0) as [resp Hresp]; [apply elem_of_cons; by left|].
    cbn [app blades_loop]. rewrite Hresp, IH
      by (intros c' Hc'; apply Hp; by apply elem_of_cons; right).
    csimpl. rewrite <- app_assoc. unfold BladesReport.chassis_rows.
    by rewrite (fetched_rows c0 resp).
Qed.

Lemma chassis_process_fetched (c : EquipmentChassis.t) resp
    (st : ChassisReport.state) :
  blade_list_call client (chassis_moid c) = Returns resp →
  {| ChassisReport.model_summary_counts :=
       ChassisReport.summarise c (ChassisReport.populated_slots_details resp)
         (ChassisReport.model_summary_counts st);
     ChassisReport.csvfile :=
       ChassisReport.csvfile st
       ++ slot_rows c
            (ChassisReport.expanded_slots_details (total_slots c)
               (ChassisReport.populated_slots_details resp)) |}
  = ChassisReport.process_chassis api st c.
Proof.
  intros Hresp.
  unfold ChassisReport.process_chassis, ChassisReport.chassis_rows.
  by rewrite (fetched_rows c resp).
Qed.

Lemma chassis_loop_fetched (results : list EquipmentChassis.t)
    (st : ChassisReport.state) :
  (∀ c, c ∈ results → blades_fetched client c) →
  chassis_loop client st results
  = (foldl (ChassisReport.process_chassis api) st results, false).
Proof.
  revert st. induction results as [|c results IH]; intros st Hall; [done|].
  destruct (Hall c) as [resp Hresp]; [apply elem_of_cons; by left|].
  cbn [chassis_loop foldl]. rewrite Hresp. cbv zeta.
  rewrite (chassis_process_fetched c resp st Hresp).
  apply IH. intros c' Hc'. apply Hall. by apply elem_of_cons; right.
Qed.

Lemma chassis_loop_first_failure
    (processed rest : list EquipmentChassis.t) (c : EquipmentChassis.t)
    (st : ChassisReport.state) :
  (∀ c', c' ∈ processed → blades_fetched client c') →
  blade_list_call client (chassis_moid c) = Raises →
  chassis_loop client st (processed ++ c :: rest)
  = (foldl (ChassisReport.process_chassis api) st processed, true).
Proof.
  intros Hp Hc. revert st Hp.
  induction processed as [|c0 processed IH]; intros st Hp.
  - cbn [app chassis_loop foldl]. by rewrite Hc.
  - destruct (Hp c0) as [resp Hresp]; [apply elem_of_cons; by left|].
    cbn [app chassis_loop foldl]. rewrite Hresp. cbv zeta.
    rewrite (chassis_process_fetched c0 resp st Hresp).
    apply IH. intros c' Hc'. apply Hp. by apply elem_of_cons; right.
Qed.

End failing_runs.

Lemma BladesReport_main_rows (api : Api) :
  BladesReport.main api
  = writeheader :: (chassis_of api ≫= BladesReport.chassis_rows api).
Proof.
  unfold BladesReport.main, chassis_of, BladesReport.run.
  destruct (usable_results _); [apply BladesReport_foldl | done].
Qed.

Lemma ChassisReport_main_prefix (api : Api) :
  (writeheader :: (chassis_of api ≫= ChassisReport.chassis_rows api))
    `prefix_of` ChassisReport.main api.
Proof.
  unfold ChassisReport.main, chassis_of, ChassisReport.run.
  destruct (usable_results _) as [results|]; [|done].
  rewrite ChassisReport_foldl_csvfile. simpl. by eexists.
Qed.

(** X13.  In [blades.py], with the file opened and its writes succeeding:
    when the chassis-list call raises, the file holds the header alone; when
    the blade-list call of a chassis is the first to raise, the file holds the
    header and the complete rows of exactly the chassis before it, and no row
    of that chassis or of a later one; when no call raises, the file is the
    whole report.  In every case the file is a prefix of the report. *)
Theorem blades_failure_leaves_prefix (client : Failing.Client) (api : Api) :
  Failing.agrees client api →
  let out := Failing.blades_main client in
  (Failing.chassis_list_call client = Failing.Raises →
   out = {| Failing.written := [writeheader]; Failing.interrupted := true |})
  ∧ ((∃ resp, Failing.chassis_list_call client = Failing.Returns resp) →
     (∀ processed c rest,
        chassis_of api = processed ++ c :: rest →
        (∀ c', c' ∈ processed → Failing.blades_fetched client c') →
        Failing.blade_list_call client (chassis_moid c) = Failing.Raises →
        out = {| Failing.written :=
                   writeheader
                   :: (processed ≫= BladesReport.chassis_rows api);
                 Failing.interrupted := true |})
     ∧ ((∀ c, c ∈ chassis_of api → Failing.blades_fetched client c) →
        out = {| Failing.written := BladesReport.main api;
                 Failing.interrupted := false |}))
  ∧ Failing.written out `prefix_of` BladesReport.main api.
Proof.
  intros Hagrees out.
  assert (Hraises : Failing.chassis_list_call client = Failing.Raises →
    out = {| Failing.written := [writeheader]; Failing.interrupted := true |}).
  { intros Hc. unfold out, Failing.blades_main. by rewrite Hc. }
  assert (Hreturns : ∀ resp,
    Failing.chassis_list_call client = Failing.Returns resp →
    out = Failing.blades_loop client [writeheader] (chassis_of api)).
  { intros resp Hresp. unfold out, Failing.blades_main, chassis_of.
    destruct Hagrees as [Hchassis _]. rewrite Hresp, (Hchassis _ Hresp).
    by destruct (usable_results resp). }
  split_and!; [done | |].
  - intros [resp Hresp]. rewrite (Hreturns resp Hresp). split.
    + intros processed c rest -> Hp Hc.
      by rewrite (blades_loop_first_failure client api Hagrees).
    + intros Hall. rewrite BladesReport_main_rows.
      by rewrite (blades_loop_fetched client api Hagrees).
  - rewrite BladesReport_main_rows.
    destruct (Failing.chassis_list_call client) as [resp|] eqn:E.
    + rewrite (Hreturns resp eq_refl).
      destruct (first_failure client (chassis_of api))
        as [Hall|(processed & c & rest & Hsplit & Hp & Hc)].
      * by rewrite (blades_loop_fetched client api Hagrees).
      * rewrite Hsplit, (blades_loop_first_failure client api Hagrees)
          by done.
        simpl. rewrite bind_app. by eexists.
    + rewrite Hraises by done. simpl. by eexists.
Qed.

Lemma blades_failure_leaves_prefix_witness :
  let second :=
    EquipmentChassis.Build None (Some (PStr "moid-2")) None None None in
  let client :=
    {| Failing.chassis_list_call :=
         Failing.Returns (Response (Some (Some [Sample.operable; second])));
       Failing.blade_list_call := λ moid,
         if decide (moid = PStr "moid-1")
         then Failing.Returns
                (Response (Some (Some
                   [Sample.blade (PInt 2) "UCSB-B200-M5" "SN2"])))
         else Failing.Raises |} in
  let api :=
    Sample.api (Response (Some (Some [Sample.operable; second])))
      [Sample.blade (PInt 2) "UCSB-B200-M5" "SN2"] in
  Failing.blades_main client
  = {| Failing.written :=
         writeheader :: BladesReport.chassis_rows api Sample.operable;
       Failing.interrupted := true |}.
Proof.
  intros second client api.
  destruct (blades_failure_leaves_prefix client api) as (_ & Hcut & _).
  - split.
    + intros resp [= <-]. reflexivity.
    + intros moid resp. simpl. case_decide; [|discriminate].
      intros [= <-]. reflexivity.
  - destruct Hcut as [Hcut _]; [by eexists|].
    rewrite (Hcut [Sample.operable] second []).
    + reflexivity.
    + reflexivity.
    + intros c' ->%list_elem_of_singleton. by eexists.
    + reflexivity.
Defined.

(** X14.  In [chassis.py], with the file opened and its writes succeeding:
    when the chassis-list call raises, the file holds the header alone; when
    the blade-list call of a chassis is the first to raise, the file holds the
    header and the complete rows of exactly the chassis before it, and no
    summary block, although counts were gathered: every line after the header
    is a slot row; when no call raises, the file is the whole report, summary
    block included.  In every case the file is a prefix of the report. *)
Theorem chassis_failure_writes_no_summary
    (client : Failing.Client) (api : Api) :
  Failing.agrees client api →
  let out := Failing.chassis_main client in
  (Failing.chassis_list_call client = Failing.Raises →
   out = {| Failing.written := [writeheader]; Failing.interrupted := true |})
  ∧ ((∃ resp, Failing.chassis_list_call client = Failing.Returns resp) →
     (∀ processed c rest,
        chassis_of api = processed ++ c :: rest →
        (∀ c', c' ∈ processed → Failing.blades_fetched client c') →
        Failing.blade_list_call client (chassis_moid c) = Failing.Raises →
        out = {| Failing.written :=
                   writeheader
                   :: (processed ≫= ChassisReport.chassis_rows api);
                 Failing.interrupted := true |})
     ∧ ((∀ c, c ∈ chassis_of api → Failing.blades_fetched client c) →
        out = {| Failing.written := ChassisReport.main api;
                 Failing.interrupted := false |}))
  ∧ (Failing.interrupted out = true →
     ∀ ln, ln ∈ Failing.written out →
           ln = writeheader ∨ ∃ i, line_slot ln = Some (PInt i))
  ∧ Failing.written out `prefix_of` ChassisReport.main api.
Proof.
  intros Hagrees out.
  assert (Hrows : ∀ processed ln,
    ln ∈ writeheader :: (processed ≫= ChassisReport.chassis_rows api) →
    ln = writeheader ∨ ∃ i, line_slot ln = Some (PInt i)).
  { intros processed ln [->|Hln]%elem_of_cons; [by left|]. right.
    apply list_elem_of_bind in Hln as (c & Hln & _).
    apply elem_of_slot_rows in Hln as (i & _ & ->).
    exists i. simpl. by rewrite Slot_slot_row. }
  assert (Hraises : Failing.chassis_list_call client = Failing.Raises →
    out = {| Failing.written := [writeheader]; Failing.interrupted := true |}).
  { intros Hc. unfold out, Failing.chassis_main. by rewrite Hc. }
  assert (Hfailure : ∀ resp processed c rest,
    Failing.chassis_list_call client = Failing.Returns resp →
    chassis_of api = processed ++ c :: rest →
    (∀ c', c' ∈ processed → Failing.blades_fetched client c') →
    Failing.blade_list_call client (chassis_moid c) = Failing.Raises →
    out = {| Failing.written :=
               writeheader :: (processed ≫= ChassisReport.chassis_rows api);
             Failing.interrupted := true |}).
  { intros resp processed c rest Hresp Hsplit Hp Hc.
    unfold out, Failing.chassis_main. unfold chassis_of in Hsplit.
    pose proof Hagrees as [Hchassis _].
    rewrite Hresp. rewrite (Hchassis _ Hresp) in Hsplit.
    destruct (usable_results resp) as [results|]; simpl in Hsplit;
      [|by destruct processed].
    subst results.
    rewrite (chassis_loop_first_failure client api Hagrees) by done.
    by rewrite ChassisReport_foldl_csvfile. }
  assert (Hfetched : ∀ resp,
    Failing.chassis_list_call client = Failing.Returns resp →
    (∀ c, c ∈ chassis_of api → Failing.blades_fetched client c) →
    out = {| Failing.written := ChassisReport.main api;
             Failing.interrupted := false |}).
  { intros resp Hresp Hall.
    unfold out, Failing.chassis_main, ChassisReport.main, ChassisReport.run.
    unfold chassis_of in Hall. pose proof Hagrees as [Hchassis _].
    rewrite Hresp. rewrite (Hchassis _ Hresp) in Hall |- *.
    destruct (usable_results resp) as [results|]; [|done].
    by rewrite (chassis_loop_fetched client api Hagrees). }
  assert (Hcases :
    (out = {| Failing.written := ChassisReport.main api;
              Failing.interrupted := false |})
    ∨ ∃ processed, processed `prefix_of` chassis_of api
        ∧ out = {| Failing.written :=
                     writeheader
                     :: (processed ≫= ChassisReport.chassis_rows api);
                   Failing.interrupted := true |}).
  { destruct (Failing.chassis_list_call client) as [resp|] eqn:E.
    - destruct (first_failure client (chassis_of api))
        as [Hall|(processed & c & rest & Hsplit & Hp & Hc)].
      + left. by apply (Hfetched resp).
      + right. exists processed. split; [rewrite Hsplit; by eexists|].
        by apply (Hfailure resp processed c rest).
    - right. exists []. split; [apply prefix_nil | by apply Hraises]. }
  split_and!; [done | | |].
  - intros [resp Hresp]. split.
    + intros processed c rest. by apply (Hfailure resp).
    + by apply (Hfetched resp).
  - destruct Hcases as [->|(processed & _ & ->)]; [done|].
    intros _ ln. apply Hrows.
  - destruct Hcases as [->|(processed & [rest Hrest] & ->)]; [done|].
    simpl. etrans; [|apply ChassisReport_main_prefix].
    rewrite Hrest, bind_app. by eexists.
Qed.

Lemma chassis_failure_writes_no_summary_witness :
  let second :=
    EquipmentChassis.Build None (Some (PStr "moid-2")) None None None in
  let client :=
    {| Failing.chassis_list_call :=
         Failing.Returns (Response (Some (Some [Sample.operable; second])));
       Failing.blade_list_call := λ moid,
         if decide (moid = PStr "moid-1")
         then Failing.Returns
                (Response (Some (Some
                   [Sample.blade (PInt 2) "UCSX-410C-M7" "SN2"])))
         else Failing.Raises |} in
  let api :=
    Sample.api (Response (Some (Some [Sample.operable; second])))
      [Sample.blade (PInt 2) "UCSX-410C-M7" "SN2"] in
  Failing.chassis_main client
  = {| Failing.written :=
         writeheader :: ChassisReport.chassis_rows api Sample.operable;
       Failing.interrupted := true |}.
Proof.
  intros second client api.
  destruct (chassis_failure_writes_no_summary client api) as (_ & Hcut & _).
  - split.
    + intros resp [= <-]. reflexivity.
    + intros moid resp. simpl. case_decide; [|discriminate].
      intros [= <-]. reflexivity.
  - destruct Hcut as [Hcut _]; [by eexists|].
    rewrite (Hcut [Sample.operable] second []).
    + reflexivity.
    + reflexivity.
    + intros c' ->%list_elem_of_singleton. by eexists.
    + reflexivity.
Defined.

(** ** The summary block *)

(** X15.  The summary block of [chassis.py] lists exactly the pairs of a
    chassis model and a status label whose count is positive, each with that
    count: a data row for a model, a label and a number is in the block if and
    only if the number is positive and is the count of the label under the
    model. *)
Theorem summary_block_lists_positive_counts (api : Api)
    (results : list EquipmentChassis.t)
    (model : pyval) (status : string) (n : Z) :
  let msc :=
    ChassisReport.model_summary_counts (ChassisReport.run api results) in
  ChassisReport.summary_data_row model (status, n)
    ∈ ChassisReport.summary_block msc
  ↔ 0 < n ∧ label_count msc model status = n.
Proof.
  intros msc.
  assert (Hwf : summary_well_formed (label_of_fleet results) msc).
  { apply well_formed_foldl.
    - intros c Hc. split; exists c; split_and!; auto.
    - split; [constructor | done]. }
  destruct Hwf as [Hnd Hwf].
  unfold ChassisReport.summary_block. rewrite elem_of_app. split.
  - intros [Hfixed|Hdata].
    + repeat (apply elem_of_cons in Hfixed as [Hfixed|Hfixed];
              [discriminate Hfixed|]).
      by apply elem_of_nil in Hfixed.
    + apply list_elem_of_bind in Hdata as ([m sc] & Hrow & Hentry).
      apply list_elem_of_fmap in Hrow as ([s k] & Hrow & Hitem).
      simpl in Hrow, Hitem. injection Hrow as <- <- <-.
      apply elem_get in Hentry; [|done].
      destruct (Hwf _ _ Hentry) as [Hndsc Hsc].
      apply elem_get in Hitem; [|done].
      destruct (Hsc _ _ Hitem) as [Hpos _]. split; [done|].
      unfold label_count. fold msc. unfold OrderedDict.odict in *.
      by rewrite Hentry; simpl; rewrite Hitem.
  - intros [Hpos Hcount]. right. unfold label_count in Hcount.
    destruct (OrderedDict.get model msc) as [sc|] eqn:Hentry;
      simpl in Hcount; [|lia].
    destruct (OrderedDict.get status sc) as [k|] eqn:Hitem;
      simpl in Hcount; [|lia].
    subst k. apply get_Some_elem in Hentry, Hitem.
    apply list_elem_of_bind. exists (model, sc). split; [|done].
    apply list_elem_of_fmap. by exists (status, n).
Qed.
